(** * KubeVirt router-mode pod networking and its data-normalisation helpers

    A shallow embedding of
    - [pkg/network/dns] (resolv.conf parsing, search-domain selection),
    - [pkg/network/infraconfigurators] (router-mode configurator, reserved ports),
    - [pkg/network/ndp] (router advertiser loop),
    - [pkg/virt-launcher/virtwrap/agent-poller] (guest-agent reply parsing and
      the merge of agent data with the domain's interfaces),
    followed by the properties proved about them.

    Go strings are byte sequences and are modelled by [string]; [len] is
    [String.length].  Go maps are modelled by stdpp's [gmap]. *)

From Stdlib Require Import String Ascii List ZArith Lia Bool Arith DecimalString.
From stdpp Require Import base option list gmap strings.
Import ListNotations.

Local Open Scope string_scope.
Local Open Scope list_scope.

(* ===================================================================== *)
(** * Part I.  Definitions                                                 *)
(* ===================================================================== *)

(** ** Go's [strings] package, as far as the sources use it *)

Module GoStrings.

(** [strings.HasPrefix(s, prefix)]. *)
Definition HasPrefix (s pre : string) : bool := String.prefix pre s.

(** [strings.Contains(s, substr)]: some suffix of [s] starts with [substr]. *)
Fixpoint Contains (s substr : string) : bool :=
  HasPrefix s substr ||
  match s with
  | EmptyString => false
  | String _ s' => Contains s' substr
  end.

End GoStrings.

(** ** Characters and byte strings *)

Module Chars.

Definition code (c : ascii) : N := N_of_ascii c.

Definition newline : ascii := "010"%char.
Definition carriage_return : ascii := "013"%char.
Definition dquote : ascii := "034"%char.
Definition backslash : ascii := "092"%char.

Definition in_range (lo hi : N) (c : ascii) : bool :=
  (lo <=? code c)%N && (code c <=? hi)%N.

Definition is_digit : ascii -> bool := in_range 48 57.
Definition is_lower_hex (c : ascii) : bool := is_digit c || in_range 97 102 c.

(** RE2's [\s]: tab, line feed, form feed, carriage return, space. *)
Definition is_space (c : ascii) : bool :=
  let n := code c in
  (n =? 9)%N || (n =? 10)%N || (n =? 12)%N || (n =? 13)%N || (n =? 32)%N.

Definition is_char (c : ascii) : ascii -> bool := Ascii.eqb c.


(** The first [n] bytes of [s] ([s[:n]]). *)
Fixpoint take (n : nat) (s : string) : string :=
  match n, s with
  | S n', String c s' => String c (take n' s')
  | _, _ => EmptyString
  end.

End Chars.

(** ** Go's [regexp] package

    A backtracking matcher with the leftmost-first preference order of Go's
    (non-POSIX) regular expressions: the match starts as early as possible
    and, among the matches starting there, is the one a backtracking search
    finds first.  Repetition is greedy.  *)

Module Regexp.

Inductive regex : Type :=
| Eps
| Cls (p : ascii -> bool)
| Cat (r1 r2 : regex)
| Alt (r1 r2 : regex)
| Star (r : regex)
| Group (i : nat) (r : regex).

Definition Plus (r : regex) : regex := Cat r (Star r).
Definition Opt (r : regex) : regex := Alt r Eps.
Definition Lit (c : ascii) : regex := Cls (Chars.is_char c).

Fixpoint Str (s : string) : regex :=
  match s with
  | EmptyString => Eps
  | String c s' => Cat (Lit c) (Str s')
  end.

(** Submatches found so far: group index and text, most recent first. *)
Definition Caps : Type := list (nat * string).

Definition consumed (s s' : string) : string :=
  Chars.take (String.length s - String.length s') s.

Fixpoint bt {R : Type} (r : regex) (s : string) (caps : Caps)
    (k : string -> Caps -> option R) {struct r} : option R :=
  match r with
  | Eps => k s caps
  | Cls p =>
      match s with
      | String c s' => if p c then k s' caps else None
      | EmptyString => None
      end
  | Cat r1 r2 => bt r1 s caps (fun s' caps' => bt r2 s' caps' k)
  | Alt r1 r2 =>
      match bt r1 s caps k with
      | Some x => Some x
      | None => bt r2 s caps k
      end
  | Star r1 =>
      (fix loop (fuel : nat) (s : string) (caps : Caps) {struct fuel} : option R :=
         match fuel with
         | O => k s caps
         | S fuel' =>
             match bt r1 s caps
                     (fun s' caps' =>
                        if Nat.ltb (String.length s') (String.length s)
                        then loop fuel' s' caps' else None) with
             | Some x => Some x
             | None => k s caps
             end
         end) (String.length s) s caps
  | Group i r1 =>
      bt r1 s caps (fun s' caps' => k s' ((i, consumed s s') :: caps'))
  end.

(** A match anchored at the start of [s]: the matched text and the groups. *)
Definition match_here (r : regex) (s : string) : option (string * Caps) :=
  bt r s [] (fun s' caps => Some (consumed s s', caps)).

(** The leftmost match in [s]. *)
Fixpoint find (r : regex) (s : string) : option (string * Caps) :=
  match match_here r s with
  | Some m => Some m
  | None =>
      match s with
      | EmptyString => None
      | String _ s' => find r s'
      end
  end.

(** [re.FindString(s)]: the text of the leftmost match, or the empty string. *)
Definition FindString (r : regex) (s : string) : string :=
  match find r s with
  | Some (m, _) => m
  | None => ""
  end.

Fixpoint group_text (caps : Caps) (i : nat) : string :=
  match caps with
  | [] => ""
  | (j, t) :: rest => if Nat.eqb i j then t else group_text rest i
  end.

(** [re.FindStringSubmatch(s)] for an expression with [ngroups] groups:
    [None] is Go's nil slice (no match); otherwise the whole match followed
    by the text of each group. *)
Definition FindStringSubmatch (r : regex) (ngroups : nat) (s : string)
    : option (list string) :=
  match find r s with
  | Some (m, caps) => Some (m :: List.map (group_text caps) (seq 1 ngroups))
  | None => None
  end.

End Regexp.

(** ** Go's [bufio.Scanner] with the default line splitter *)

Module Bufio.

(** [bufio.MaxScanTokenSize]: the size of the scanner's buffer. *)
Definition MaxScanTokenSize : Z := 65536.

Definition ErrTooLong : string := "bufio.Scanner: token too long".

(** The newline-separated pieces of the input, in order; a final piece that
    is empty is no line.  [cur] holds the current piece, reversed. *)
Fixpoint raw_lines (cur : list ascii) (s : string) : list string :=
  match s with
  | EmptyString =>
      match cur with
      | [] => []
      | _ => [string_of_list_ascii (List.rev cur)]
      end
  | String c s' =>
      if Ascii.eqb c Chars.newline
      then string_of_list_ascii (List.rev cur) :: raw_lines [] s'
      else raw_lines (c :: cur) s'
  end.

(** [dropCR]: one trailing carriage return is removed. *)
Fixpoint dropCR (s : string) : string :=
  match s with
  | EmptyString => EmptyString
  | String c EmptyString =>
      if Ascii.eqb c Chars.carriage_return then EmptyString else s
  | String c s' => String c (dropCR s')
  end.

(** A line is delivered only if it fits the buffer together with the byte
    that ends it; otherwise [Scan] stops with [ErrTooLong]. *)
Definition fits (line : string) : bool :=
  (Z.of_nat (String.length line) <? MaxScanTokenSize)%Z.

(** The tokens [Scan] delivers before it returns false, and [Err()]. *)
Fixpoint scan (lines : list string) : list string * option string :=
  match lines with
  | [] => ([], None)
  | l :: rest =>
      if fits l
      then let '(toks, err) := scan rest in (dropCR l :: toks, err)
      else ([], Some ErrTooLong)
  end.

Definition ScanLines (content : string) : list string * option string :=
  scan (raw_lines [] content).

End Bufio.

(** ** Go's [net.IP] and [net.ParseIP]

    A [net.IP] is a byte slice; the nil slice is [[]]. The parser follows
    the textual parser of Go's [net] package: dotted decimal without
    leading zeros, and RFC 4291 text with at most one ellipsis and an
    optional trailing dotted quad. *)

Module Net.

Definition IP : Type := list Z.

Definition IPv4len : nat := 4.
Definition IPv6len : nat := 16.

Definition is_nil (ip : IP) : bool :=
  match ip with [] => true | _ => false end.

Definition has_ellipsis (o : option nat) : bool :=
  match o with Some _ => true | None => false end.

(** [net.IPv4(a, b, c, d)]: the 16-byte form of an IPv4 address. *)
Definition IPv4 (a b c d : Z) : IP :=
  [0; 0; 0; 0; 0; 0; 0; 0; 0; 0; 255; 255; a; b; c; d]%Z.

Definition big : Z := 16777215.

(** [dtoi]: decimal digits at the start of [s]: value, rest, digits read;
    [None] when there is no digit or the value reaches [big]. *)
Fixpoint dtoi_loop (n : Z) (i : nat) (s : string) : option (Z * nat * string) :=
  match s with
  | String c s' =>
      if Chars.is_digit c then
        let n' := (n * 10 + (Z.of_N (Chars.code c) - 48))%Z in
        if (big <=? n')%Z then None else dtoi_loop n' (S i) s'
      else Some (n, i, s)
  | EmptyString => Some (n, i, s)
  end.

Definition dtoi (s : string) : option (Z * nat * string) :=
  match dtoi_loop 0 0 s with
  | Some (n, i, rest) => if Nat.eqb i 0 then None else Some (n, i, rest)
  | None => None
  end.

Definition hex_value (c : ascii) : option Z :=
  let n := Z.of_N (Chars.code c) in
  if Chars.is_digit c then Some (n - 48)%Z
  else if Chars.in_range 97 102 c then Some (n - 97 + 10)%Z
  else if Chars.in_range 65 70 c then Some (n - 65 + 10)%Z
  else None.

(** [xtoi]: the same for hexadecimal digits. *)
Fixpoint xtoi_loop (n : Z) (i : nat) (s : string) : option (Z * nat * string) :=
  match s with
  | String c s' =>
      match hex_value c with
      | Some v =>
          let n' := (n * 16 + v)%Z in
          if (big <=? n')%Z then None else xtoi_loop n' (S i) s'
      | None => Some (n, i, s)
      end
  | EmptyString => Some (n, i, s)
  end.

Definition xtoi (s : string) : option (Z * nat * string) :=
  match xtoi_loop 0 0 s with
  | Some (n, i, rest) => if Nat.eqb i 0 then None else Some (n, i, rest)
  | None => None
  end.

Definition starts_with (c : ascii) (s : string) : bool :=
  match s with
  | String c' _ => Ascii.eqb c c'
  | EmptyString => false
  end.

Definition tail (s : string) : string :=
  match s with
  | String _ s' => s'
  | EmptyString => EmptyString
  end.

(** The loop of [parseIPv4]: [todo] octets are still to be read and [first]
    tells whether the next one is the first. *)
Fixpoint parseIPv4_loop (todo : nat) (first : bool) (s : string) : option (list Z) :=
  match todo with
  | O => if String.eqb s "" then Some [] else None
  | S todo' =>
      if String.eqb s "" then None
      else if negb first && negb (starts_with "." s) then None
      else
        let s1 := if first then s else tail s in
        match dtoi s1 with
        | Some (n, c, rest) =>
            if (255 <? n)%Z then None
            else if Nat.ltb 1 c && starts_with "0" s1 then None
            else
              match parseIPv4_loop todo' false rest with
              | Some p => Some (n :: p)
              | None => None
              end
        | None => None
        end
  end.

Definition parseIPv4 (s : string) : IP :=
  match parseIPv4_loop IPv4len true s with
  | Some [a; b; c; d] => IPv4 a b c d
  | _ => []
  end.

(** The 16-bit groups (as bytes) read by the loop of [parseIPv6]: the bytes
    before the ellipsis, the bytes after it, and whether an ellipsis was
    seen.  [i] counts the bytes stored so far. *)
Fixpoint parseIPv6_loop (fuel : nat) (i : nat) (ellipsis : option nat) (acc : list Z)
    (s : string) : option (list Z * option nat) :=
  match fuel with
  | O => if String.eqb s "" then Some (acc, ellipsis) else None
  | S fuel' =>
      match xtoi s with
      | None => None
      | Some (n, c, rest) =>
          if (65535 <? n)%Z then None
          else if starts_with "." rest then
            (* a trailing dotted quad *)
            if negb (has_ellipsis ellipsis) && negb (Nat.eqb i (IPv6len - IPv4len)) then None
            else if Nat.ltb IPv6len (i + IPv4len) then None
            else
              match parseIPv4_loop IPv4len true s with
              | Some [a; b; c4; d] => Some (acc ++ [a; b; c4; d], ellipsis)
              | _ => None
              end
          else
            let acc' := acc ++ [Z.shiftr n 8; Z.land n 255] in
            let i' := i + 2 in
            if String.eqb rest "" then Some (acc', ellipsis)
            else if negb (starts_with ":" rest) || Nat.eqb (String.length rest) 1
            then None
            else
              let s1 := tail rest in
              if starts_with ":" s1 then
                match ellipsis with
                | Some _ => None
                | None =>
                    let s2 := tail s1 in
                    if String.eqb s2 "" then Some (acc', Some i')
                    else if Nat.ltb i' IPv6len
                    then parseIPv6_loop fuel' i' (Some i') acc' s2
                    else None
                end
              else if Nat.ltb i' IPv6len
              then parseIPv6_loop fuel' i' ellipsis acc' s1
              else None
      end
  end.

(** Expanding the ellipsis: [IPv6len - i] zero bytes are inserted at its
    position; without an ellipsis all 16 bytes must have been read, and with
    one at least one group must be missing. *)
Definition expand_ellipsis (bytes : list Z) (ellipsis : option nat) : IP :=
  let i := length bytes in
  if Nat.ltb i IPv6len then
    match ellipsis with
    | None => []
    | Some e => firstn e bytes ++ List.repeat 0%Z (IPv6len - i) ++ skipn e bytes
    end
  else
    match ellipsis with
    | None => bytes
    | Some _ => []
    end.

Definition parseIPv6 (s : string) : IP :=
  let lead := starts_with ":" s && starts_with ":" (tail s) in
  let s0 := if lead then tail (tail s) else s in
  if lead && String.eqb s0 "" then List.repeat 0%Z IPv6len
  else
    match parseIPv6_loop 9 0 (if lead then Some 0 else None) [] s0 with
    | Some (bytes, ellipsis) => expand_ellipsis bytes ellipsis
    | None => []
    end.

(** [net.ParseIP]: the first dot or colon decides the family. *)
Fixpoint ParseIP_dispatch (whole s : string) : IP :=
  match s with
  | EmptyString => []
  | String c s' =>
      if Ascii.eqb c "." then parseIPv4 whole
      else if Ascii.eqb c ":" then parseIPv6 whole
      else ParseIP_dispatch whole s'
  end.

Definition ParseIP (s : string) : IP := ParseIP_dispatch s s.

End Net.

(** ** [pkg/network/dns]: search domains *)

Module Dns.

Definition k8sServiceInfix : string := ".svc.".

(** The loop of [GetDomainName], started from an arbitrary [selected]. *)
Fixpoint GetDomainName_loop (selected : string) (searchDomains : list string) : string :=
  match searchDomains with
  | [] => selected
  | d :: rest =>
      GetDomainName_loop
        (if Nat.ltb (String.length selected) (String.length d) then d else selected)
        rest
  end.

Definition GetDomainName (searchDomains : list string) : string :=
  GetDomainName_loop "" searchDomains.

Definition GetServiceDomainList (searchDomains : list string) : list string :=
  List.filter (fun d => GoStrings.Contains d k8sServiceInfix) searchDomains.

Definition GetLongestServiceDomainName (searchDomains : list string) : string :=
  GetDomainName (GetServiceDomainList searchDomains).

Definition DomainNameWithSubdomain (searchDomains : list string) (subdomain : string) : string :=
  if String.eqb subdomain "" then ""
  else
    let domainName := GetLongestServiceDomainName searchDomains in
    if negb (String.eqb domainName "") &&
       negb (GoStrings.HasPrefix domainName (subdomain ++ "."))
    then (subdomain ++ "." ++ domainName)%string
    else "".

Definition nameserverPrefix : string := "nameserver".
Definition defaultIPv4DNS : string := "8.8.8.8".

(** [reIPv4 = "([0-9]{1,3}.?){4}"]: the dot is unescaped and matches any
    character but a line feed. *)
Definition reIPv4 : Regexp.regex :=
  let digit := Regexp.Cls Chars.is_digit in
  let dot := Regexp.Cls (fun c => negb (Ascii.eqb c Chars.newline)) in
  let item :=
    Regexp.Cat (Regexp.Cat digit (Regexp.Opt (Regexp.Cat digit (Regexp.Opt digit))))
               (Regexp.Opt dot) in
  Regexp.Cat (Regexp.Group 1 item)
    (Regexp.Cat (Regexp.Group 1 item)
       (Regexp.Cat (Regexp.Group 1 item) (Regexp.Group 1 item))).

(** [reIPv6 = "([a-f0-9:]+:+)+[a-f0-9]+"]. *)
Definition reIPv6 : Regexp.regex :=
  let hex := Regexp.Cls Chars.is_lower_hex in
  let hexcolon := Regexp.Cls (fun c => Chars.is_lower_hex c || Ascii.eqb c ":") in
  let colon := Regexp.Lit ":" in
  Regexp.Cat
    (Regexp.Plus (Regexp.Group 1 (Regexp.Cat (Regexp.Plus hexcolon) (Regexp.Plus colon))))
    (Regexp.Plus hex).

(** One iteration of the scanning loop of [ParseNameservers]. *)
Definition nameserver_step (acc : list Net.IP * list Net.IP) (line : string)
    : list Net.IP * list Net.IP :=
  let '(ipv4Nameservers, ipv6Nameservers) := acc in
  if GoStrings.HasPrefix line nameserverPrefix then
    let nameserver6 := Net.ParseIP (Regexp.FindString reIPv6 line) in
    if negb (Net.is_nil nameserver6)
    then (ipv4Nameservers, ipv6Nameservers ++ [nameserver6])
    else
      let nameserver4 := Net.ParseIP (Regexp.FindString reIPv4 line) in
      if negb (Net.is_nil nameserver4)
      then (ipv4Nameservers ++ [nameserver4], ipv6Nameservers)
      else acc
  else acc.

(** [ParseNameservers]: IPv4 nameservers, IPv6 nameservers, error. *)
Definition ParseNameservers (content : string)
    : list Net.IP * list Net.IP * option string :=
  let '(lines, scanErr) := Bufio.ScanLines content in
  let '(ipv4Nameservers, ipv6Nameservers) := fold_left nameserver_step lines ([], []) in
  match scanErr with
  | Some err => (ipv4Nameservers, ipv6Nameservers, Some err)
  | None =>
      if Nat.eqb (length ipv4Nameservers) 0 && Nat.eqb (length ipv6Nameservers) 0
      then (ipv4Nameservers ++ [Net.ParseIP defaultIPv4DNS], ipv6Nameservers, None)
      else (ipv4Nameservers, ipv6Nameservers, None)
  end.

(** The longest service domain, as the specification words it: an entry of
    the list that contains the service infix, strictly longer than every
    service entry before it and at least as long as every one after it. *)
Definition is_service (d : string) : Prop :=
  GoStrings.Contains d k8sServiceInfix = true.

Definition longest_service_domain (searchDomains : list string) (d : string) : Prop :=
  exists pre post : list string,
    searchDomains = pre ++ d :: post /\
    is_service d /\
    (forall d', In d' pre -> is_service d' -> String.length d' < String.length d) /\
    (forall d', In d' post -> is_service d' -> String.length d' <= String.length d).







Definition all_lines_fit (content : string) : Prop :=
  Forall (fun l => Bufio.fits l = true) (Bufio.raw_lines [] content).

End Dns.

(** ** Go values that may panic *)

Inductive GoResult (A : Type) : Type :=
| Returns (a : A)
| Panics (msg : string).

Arguments Returns {A} a.
Arguments Panics {A} msg.

(** ** Go's [encoding/json], as far as the sources use it

    [parse] checks a text against the JSON grammar and builds its value;
    the decoders below follow [json.Unmarshal]: a text that is not valid
    JSON leaves the destination untouched and gives a syntax error; a value
    of the wrong kind for its destination is skipped and the first such
    mismatch is the error returned; [null] leaves a destination as it is;
    object keys select struct fields by exact name or else without regard
    to case; unknown keys are ignored.  Bytes of a string literal that are
    not valid UTF-8 are kept as they are. *)

Module Json.

#[warnings="-register-all"]
Inductive value : Type :=
| JNull
| JBool (b : bool)
| JNumber (lit : string)
| JString (s : string)
| JArray (elems : list value)
| JObject (members : list (string * value)).

Definition is_ws (c : ascii) : bool :=
  let n := Chars.code c in
  (n =? 32)%N || (n =? 9)%N || (n =? 10)%N || (n =? 13)%N.

Fixpoint skip_ws (s : string) : string :=
  match s with
  | String c s' => if is_ws c then skip_ws s' else s
  | EmptyString => s
  end.

Definition hex4 (a b c d : ascii) : option Z :=
  match Net.hex_value a, Net.hex_value b, Net.hex_value c, Net.hex_value d with
  | Some x, Some y, Some z, Some w => Some (((x * 16 + y) * 16 + z) * 16 + w)%Z
  | _, _, _, _ => None
  end.

Definition byte_of (n : Z) : ascii := ascii_of_N (Z.to_N n).

(** The UTF-8 encoding of a code point. *)
Definition utf8 (cp : Z) : string :=
  if (cp <? 128)%Z then String (byte_of cp) ""
  else if (cp <? 2048)%Z then
    String (byte_of (192 + Z.shiftr cp 6))
      (String (byte_of (128 + Z.land cp 63)) "")
  else if (cp <? 65536)%Z then
    String (byte_of (224 + Z.shiftr cp 12))
      (String (byte_of (128 + Z.land (Z.shiftr cp 6) 63))
         (String (byte_of (128 + Z.land cp 63)) ""))
  else
    String (byte_of (240 + Z.shiftr cp 18))
      (String (byte_of (128 + Z.land (Z.shiftr cp 12) 63))
         (String (byte_of (128 + Z.land (Z.shiftr cp 6) 63))
            (String (byte_of (128 + Z.land cp 63)) ""))).

Definition replacement_char : Z := 65533.

Definition is_surrogate (cp : Z) : bool := (55296 <=? cp)%Z && (cp <? 57344)%Z.

(** [utf16.DecodeRune]. *)
Definition decode_pair (hi lo : Z) : Z :=
  if (55296 <=? hi)%Z && (hi <? 56320)%Z && (56320 <=? lo)%Z && (lo <? 57344)%Z
  then (Z.lor (Z.shiftl (hi - 55296) 10) (lo - 56320) + 65536)%Z
  else replacement_char.

Definition simple_escape (e : ascii) : option ascii :=
  if Ascii.eqb e Chars.dquote then Some Chars.dquote
  else if Ascii.eqb e Chars.backslash then Some Chars.backslash
  else if Ascii.eqb e "/" then Some "/"%char
  else if Ascii.eqb e "b" then Some "008"%char
  else if Ascii.eqb e "f" then Some "012"%char
  else if Ascii.eqb e "n" then Some "010"%char
  else if Ascii.eqb e "r" then Some "013"%char
  else if Ascii.eqb e "t" then Some "009"%char
  else None.

Definition prepend (pre : string) (r : option (string * string)) : option (string * string) :=
  match r with
  | Some (body, rest) => Some ((pre ++ body)%string, rest)
  | None => None
  end.

(** The escape [\uXXXX] at the start of [s], if there is one. *)
Definition escape_u (s : string) : option Z :=
  match s with
  | String b (String u (String h1 (String h2 (String h3 (String h4 _))))) =>
      if Ascii.eqb b Chars.backslash && Ascii.eqb u "u" then hex4 h1 h2 h3 h4 else None
  | _ => None
  end.

(** A string literal after its opening quote: the text it denotes and what
    follows the closing quote. *)
Fixpoint parse_string (s : string) : option (string * string) :=
  match s with
  | EmptyString => None
  | String c s' =>
      if Ascii.eqb c Chars.dquote then Some ("", s')
      else if Ascii.eqb c Chars.backslash then
        match s' with
        | String e s'' =>
            if Ascii.eqb e "u" then
              match s'' with
              | String h1 (String h2 (String h3 (String h4 r))) =>
                  match hex4 h1 h2 h3 h4 with
                  | Some cp =>
                      if is_surrogate cp then
                        match r with
                        | String _ (String _ (String _ (String _ (String _ (String _ r'))))) =>
                            match escape_u r with
                            | Some lo =>
                                if (decode_pair cp lo =? replacement_char)%Z
                                then prepend (utf8 replacement_char) (parse_string r)
                                else prepend (utf8 (decode_pair cp lo)) (parse_string r')
                            | None => prepend (utf8 replacement_char) (parse_string r)
                            end
                        | _ => prepend (utf8 replacement_char) (parse_string r)
                        end
                      else prepend (utf8 cp) (parse_string r)
                  | None => None
                  end
              | _ => None
              end
            else
              match simple_escape e with
              | Some ch => prepend (String ch "") (parse_string s'')
              | None => None
              end
        | EmptyString => None
        end
      else if (Chars.code c <? 32)%N then None
      else prepend (String c "") (parse_string s')
  end.

Fixpoint take_digits (s : string) : string * string :=
  match s with
  | String c s' =>
      if Chars.is_digit c
      then let '(ds, rest) := take_digits s' in (String c ds, rest)
      else ("", s)
  | EmptyString => ("", s)
  end.

(** A number literal: its text and what follows it. *)
Definition parse_number (s : string) : option (string * string) :=
  let '(sign, s1) := if Net.starts_with "-" s then ("-", Net.tail s) else ("", s) in
  let '(int, s2) := take_digits s1 in
  if String.eqb int "" then None
  else if Net.starts_with "0" int && negb (String.eqb int "0") then None
  else
    let frac :=
      if Net.starts_with "." s2 then
        let '(ds, s3) := take_digits (Net.tail s2) in
        if String.eqb ds "" then None else Some (("." ++ ds)%string, s3)
      else Some ("", s2) in
    match frac with
    | None => None
    | Some (f, s3) =>
        if Net.starts_with "e" s3 || Net.starts_with "E" s3 then
          let s4 := Net.tail s3 in
          let '(esign, s5) :=
            if Net.starts_with "+" s4 then ("+", Net.tail s4)
            else if Net.starts_with "-" s4 then ("-", Net.tail s4)
            else ("", s4) in
          let '(ds, s6) := take_digits s5 in
          if String.eqb ds "" then None
          else Some ((sign ++ int ++ f ++ "e" ++ esign ++ ds)%string, s6)
        else Some ((sign ++ int ++ f)%string, s3)
    end.

Definition drop (n : nat) (s : string) : string :=
  String.substring n (String.length s - n) s.

(** One JSON value at the start of [s]. [fuel] bounds the nesting depth; the
    loops over the elements of an array and the members of an object are
    bounded by the length of the text. *)
Fixpoint parse_value (fuel : nat) (s : string) {struct fuel} : option (value * string) :=
  match fuel with
  | O => None
  | S f =>
      match s with
      | EmptyString => None
      | String c r =>
          if Ascii.eqb c "{" then
            let r0 := skip_ws r in
            if Net.starts_with "}" r0 then Some (JObject [], Net.tail r0)
            else
              (fix members (n : nat) (s : string) (acc : list (string * value))
                   {struct n} : option (value * string) :=
                 match n with
                 | O => None
                 | S n' =>
                     if Net.starts_with Chars.dquote s then
                       match parse_string (Net.tail s) with
                       | Some (key, s2) =>
                           let s3 := skip_ws s2 in
                           if Net.starts_with ":" s3 then
                             match parse_value f (skip_ws (Net.tail s3)) with
                             | Some (v, s4) =>
                                 let s5 := skip_ws s4 in
                                 if Net.starts_with "," s5
                                 then members n' (skip_ws (Net.tail s5)) (acc ++ [(key, v)])
                                 else if Net.starts_with "}" s5
                                 then Some (JObject (acc ++ [(key, v)]), Net.tail s5)
                                 else None
                             | None => None
                             end
                           else None
                       | None => None
                       end
                     else None
                 end) (String.length r) r0 []
          else if Ascii.eqb c "[" then
            let r0 := skip_ws r in
            if Net.starts_with "]" r0 then Some (JArray [], Net.tail r0)
            else
              (fix elems (n : nat) (s : string) (acc : list value)
                   {struct n} : option (value * string) :=
                 match n with
                 | O => None
                 | S n' =>
                     match parse_value f s with
                     | Some (v, s4) =>
                         let s5 := skip_ws s4 in
                         if Net.starts_with "," s5
                         then elems n' (skip_ws (Net.tail s5)) (acc ++ [v])
                         else if Net.starts_with "]" s5
                         then Some (JArray (acc ++ [v]), Net.tail s5)
                         else None
                     | None => None
                     end
                 end) (String.length r) r0 []
          else if Ascii.eqb c Chars.dquote then
            match parse_string r with
            | Some (str, rest) => Some (JString str, rest)
            | None => None
            end
          else if Ascii.eqb c "-" || Chars.is_digit c then
            match parse_number s with
            | Some (lit, rest) => Some (JNumber lit, rest)
            | None => None
            end
          else if String.prefix "true" s then Some (JBool true, drop 4 s)
          else if String.prefix "false" s then Some (JBool false, drop 5 s)
          else if String.prefix "null" s then Some (JNull, drop 4 s)
          else None
      end
  end.

(** A whole text: one value, with white space around it and nothing else. *)
Definition parse (data : string) : option value :=
  match parse_value (S (String.length data)) (skip_ws data) with
  | Some (v, rest) => if String.eqb (skip_ws rest) "" then Some v else None
  | None => None
  end.

Definition syntax_error : string := "json: syntax error".

Definition type_error (found target : string) : string :=
  ("json: cannot unmarshal " ++ found ++ " into Go value of type " ++ target)%string.

Definition kind_of (v : value) : string :=
  match v with
  | JNull => "null"
  | JBool _ => "bool"
  | JNumber _ => "number"
  | JString _ => "string"
  | JArray _ => "array"
  | JObject _ => "object"
  end.

(** The first error wins. *)
Definition first_error (e1 e2 : option string) : option string :=
  match e1 with
  | Some _ => e1
  | None => e2
  end.

(** A decoder updates a destination from a value and may report a mismatch. *)
Definition decoder (T : Type) : Type := value -> T -> T * option string.

Definition dec_string : decoder string :=
  fun v old =>
    match v with
    | JString s => (s, None)
    | JNull => (old, None)
    | _ => (old, Some (type_error (kind_of v) "string"))
    end.

Definition dec_bool : decoder bool :=
  fun v old =>
    match v with
    | JBool b => (b, None)
    | JNull => (old, None)
    | _ => (old, Some (type_error (kind_of v) "bool"))
    end.

Fixpoint all_digits (s : string) : bool :=
  match s with
  | EmptyString => true
  | String c s' => Chars.is_digit c && all_digits s'
  end.

Fixpoint decimal (acc : Z) (s : string) : Z :=
  match s with
  | EmptyString => acc
  | String c s' => decimal (acc * 10 + (Z.of_N (Chars.code c) - 48))%Z s'
  end.

(** The value of a number literal that is an integer in decimal notation. *)
Definition integer_of_literal (lit : string) : option Z :=
  let neg := Net.starts_with "-" lit in
  let digits := if neg then Net.tail lit else lit in
  if negb (String.eqb digits "") && all_digits digits
  then Some (if neg then - decimal 0 digits else decimal 0 digits)%Z
  else None.

(** A signed integer destination of [bits] bits. *)
Definition dec_int (bits : Z) (target : string) : decoder Z :=
  fun v old =>
    match v with
    | JNumber lit =>
        match integer_of_literal lit with
        | Some n =>
            if (- 2 ^ (bits - 1) <=? n)%Z && (n <? 2 ^ (bits - 1))%Z
            then (n, None)
            else (old, Some (type_error ("number " ++ lit) target))
        | None => (old, Some (type_error ("number " ++ lit) target))
        end
    | JNull => (old, None)
    | _ => (old, Some (type_error (kind_of v) target))
    end.

(** A float64 destination, kept as the text of the number. *)
Definition dec_float : decoder string :=
  fun v old =>
    match v with
    | JNumber lit => (lit, None)
    | JNull => (old, None)
    | _ => (old, Some (type_error (kind_of v) "float64"))
    end.

Definition to_lower (c : ascii) : ascii :=
  if Chars.in_range 65 90 c then ascii_of_N (Chars.code c + 32) else c.

Fixpoint equal_fold (a b : string) : bool :=
  match a, b with
  | EmptyString, EmptyString => true
  | String x a', String y b' => Ascii.eqb (to_lower x) (to_lower y) && equal_fold a' b'
  | _, _ => false
  end.

(** The fields of a struct destination: JSON name and decoder. *)
Definition fields (T : Type) : Type := list (string * decoder T).

Definition find_field {T : Type} (fs : fields T) (key : string) : option (decoder T) :=
  match List.find (fun f => String.eqb (fst f) key) fs with
  | Some f => Some (snd f)
  | None =>
      match List.find (fun f => equal_fold (fst f) key) fs with
      | Some f => Some (snd f)
      | None => None
      end
  end.

Fixpoint dec_members {T : Type} (fs : fields T) (members : list (string * value)) (t : T)
    : T * option string :=
  match members with
  | [] => (t, None)
  | (key, v) :: rest =>
      match find_field fs key with
      | Some dec =>
          let '(t1, e1) := dec v t in
          let '(t2, e2) := dec_members fs rest t1 in
          (t2, first_error e1 e2)
      | None => dec_members fs rest t
      end
  end.

Definition dec_struct {T : Type} (target : string) (fs : fields T) : decoder T :=
  fun v old =>
    match v with
    | JObject members => dec_members fs members old
    | JNull => (old, None)
    | _ => (old, Some (type_error (kind_of v) target))
    end.

Fixpoint dec_elems {T : Type} (zero : T) (dec : decoder T) (elems : list value)
    : list T * option string :=
  match elems with
  | [] => ([], None)
  | v :: rest =>
      let '(t, e1) := dec v zero in
      let '(ts, e2) := dec_elems zero dec rest in
      (t :: ts, first_error e1 e2)
  end.

(** A slice destination that is empty or nil, as every slice the sources
    decode into is: each element of the array is decoded into a fresh
    element; [null] gives the nil slice. *)
Definition dec_slice {T : Type} (target : string) (zero : T) (dec : decoder T)
    : decoder (list T) :=
  fun v old =>
    match v with
    | JArray elems => dec_elems zero dec elems
    | JNull => ([], None)
    | _ => (old, Some (type_error (kind_of v) target))
    end.

(** [json.Unmarshal(data, &dst)]. *)
Definition Unmarshal {T : Type} (dec : decoder T) (data : string) (dst : T)
    : T * option string :=
  match parse data with
  | Some v => dec v dst
  | None => (dst, Some syntax_error)
  end.

End Json.

(** ** [kubevirt.io/api/core/v1]: the parts of a VMI the sources read *)

Module V1.

(** Modelled from the spec: [v1.Port] is declared outside the files at
    hand; its JSON names are those of the annotation's port list, [name],
    [port] and [protocol]. *)
Record Port : Type := mkPort {
  Port_Name : string;
  Port_Protocol : string;
  Port_Port : Z
}.

Definition Port_zero : Port := mkPort "" "" 0.

Definition Port_fields : Json.fields Port :=
  [ ("name", fun v p =>
       let '(x, e) := Json.dec_string v (Port_Name p) in
       (mkPort x (Port_Protocol p) (Port_Port p), e));
    ("protocol", fun v p =>
       let '(x, e) := Json.dec_string v (Port_Protocol p) in
       (mkPort (Port_Name p) x (Port_Port p), e));
    ("port", fun v p =>
       let '(x, e) := Json.dec_int 32 "int32" v (Port_Port p) in
       (mkPort (Port_Name p) (Port_Protocol p) x, e)) ].

Definition dec_Port : Json.decoder Port := Json.dec_struct "v1.Port" Port_fields.

Definition dec_Ports : Json.decoder (list Port) :=
  Json.dec_slice "[]v1.Port" Port_zero dec_Port.

(** [v1.Interface] of the VMI spec: the fields the configurator passes on. *)
Record Interface : Type := mkInterface {
  Interface_Name : string;
  Interface_MacAddress : string
}.

(** [v1.VirtualMachineInstance]: annotations and the multiqueue switch
    ([Spec.Domain.Devices.NetworkInterfaceMultiQueue], a pointer). *)
Record VirtualMachineInstance : Type := mkVMI {
  Annotations : gmap string string;
  NetworkInterfaceMultiQueue : option bool
}.

End V1.

(** ** [pkg/network/infraconfigurators]: reserved ports *)

Module ReservedPorts.
Import V1.

Definition RESERVED_PORTS_ANNOTATION : string := "kubevirt.io/reserved-ports".

Definition default_reserved_ports : list Port :=
  [ mkPort "vnc" "TCP" 5900; mkPort "vnc-ws" "TCP" 5901 ].

Definition reservedPortsInPod (vmi : VirtualMachineInstance) : list Port :=
  match Annotations vmi !! RESERVED_PORTS_ANNOTATION with
  | None => default_reserved_ports
  | Some data =>
      let ports : list Port := [] in
      let '(ports, _) := Json.Unmarshal dec_Ports data ports in
      ports
  end.

End ReservedPorts.

(** ** [pkg/virt-launcher/virtwrap/agent-poller]: guest-agent replies *)

Module AgentPoller.

(** *** The records the replies are decoded into *)

Record GuestOsInfo : Type := mkGuestOsInfo {
  os_Name : string;
  os_KernelRelease : string;
  os_Version : string;
  os_PrettyName : string;
  os_VersionId : string;
  os_KernelVersion : string;
  os_Machine : string;
  os_Id : string
}.

Record IP : Type := mkIP {
  IP_IP : string;
  IP_Type : string;
  IP_Prefix : Z
}.

Record Interface : Type := mkInterface {
  Interface_MAC : string;
  Interface_IPs : list IP;
  Interface_Name : string
}.

Record Hostname : Type := mkHostname { Hostname_Hostname : string }.

Record Timezone : Type := mkTimezone {
  Timezone_Zone : string;
  Timezone_Offset : Z
}.

(** [LoginTime] is a float64; it is kept as the text of the number. *)
Record User : Type := mkUser {
  User_Name : string;
  User_Domain : string;
  User_LoginTime : string
}.

Record Filesystem : Type := mkFilesystem {
  Filesystem_Name : string;
  Filesystem_Mountpoint : string;
  Filesystem_Type : string;
  Filesystem_UsedBytes : Z;
  Filesystem_TotalBytes : Z
}.

(** [v1.GuestAgentCommandInfo]. *)
Record GuestAgentCommandInfo : Type := mkCommandInfo {
  Command_Name : string;
  Command_Enabled : bool
}.

Record AgentInfo : Type := mkAgentInfo {
  AgentInfo_Version : string;
  AgentInfo_SupportedCommands : list GuestAgentCommandInfo
}.

(** *** Their JSON decoders, field by field as the struct tags name them *)

Definition with_string {T : Type} (get : T -> string) (set : T -> string -> T)
    : Json.decoder T :=
  fun v t => let '(x, e) := Json.dec_string v (get t) in (set t x, e).

Definition with_int {T : Type} (get : T -> Z) (set : T -> Z -> T) : Json.decoder T :=
  fun v t => let '(x, e) := Json.dec_int 64 "int" v (get t) in (set t x, e).

Definition dec_GuestOsInfo : Json.decoder GuestOsInfo :=
  Json.dec_struct "agentpoller.GuestOsInfo"
    [ ("name", with_string os_Name (fun t x =>
         mkGuestOsInfo x (os_KernelRelease t) (os_Version t) (os_PrettyName t)
           (os_VersionId t) (os_KernelVersion t) (os_Machine t) (os_Id t)));
      ("kernel-release", with_string os_KernelRelease (fun t x =>
         mkGuestOsInfo (os_Name t) x (os_Version t) (os_PrettyName t)
           (os_VersionId t) (os_KernelVersion t) (os_Machine t) (os_Id t)));
      ("version", with_string os_Version (fun t x =>
         mkGuestOsInfo (os_Name t) (os_KernelRelease t) x (os_PrettyName t)
           (os_VersionId t) (os_KernelVersion t) (os_Machine t) (os_Id t)));
      ("pretty-name", with_string os_PrettyName (fun t x =>
         mkGuestOsInfo (os_Name t) (os_KernelRelease t) (os_Version t) x
           (os_VersionId t) (os_KernelVersion t) (os_Machine t) (os_Id t)));
      ("version-id", with_string os_VersionId (fun t x =>
         mkGuestOsInfo (os_Name t) (os_KernelRelease t) (os_Version t) (os_PrettyName t)
           x (os_KernelVersion t) (os_Machine t) (os_Id t)));
      ("kernel-version", with_string os_KernelVersion (fun t x =>
         mkGuestOsInfo (os_Name t) (os_KernelRelease t) (os_Version t) (os_PrettyName t)
           (os_VersionId t) x (os_Machine t) (os_Id t)));
      ("machine", with_string os_Machine (fun t x =>
         mkGuestOsInfo (os_Name t) (os_KernelRelease t) (os_Version t) (os_PrettyName t)
           (os_VersionId t) (os_KernelVersion t) x (os_Id t)));
      ("id", with_string os_Id (fun t x =>
         mkGuestOsInfo (os_Name t) (os_KernelRelease t) (os_Version t) (os_PrettyName t)
           (os_VersionId t) (os_KernelVersion t) (os_Machine t) x)) ].

Definition dec_IP : Json.decoder IP :=
  Json.dec_struct "agentpoller.IP"
    [ ("ip-address", with_string IP_IP (fun t x => mkIP x (IP_Type t) (IP_Prefix t)));
      ("ip-address-type", with_string IP_Type (fun t x => mkIP (IP_IP t) x (IP_Prefix t)));
      ("prefix", with_int IP_Prefix (fun t x => mkIP (IP_IP t) (IP_Type t) x)) ].

Definition dec_Interface : Json.decoder Interface :=
  Json.dec_struct "agentpoller.Interface"
    [ ("hardware-address", with_string Interface_MAC (fun t x =>
         mkInterface x (Interface_IPs t) (Interface_Name t)));
      ("ip-addresses", fun v t =>
         let '(x, e) :=
           Json.dec_slice "[]agentpoller.IP" (mkIP "" "" 0) dec_IP v (Interface_IPs t) in
         (mkInterface (Interface_MAC t) x (Interface_Name t), e));
      ("name", with_string Interface_Name (fun t x =>
         mkInterface (Interface_MAC t) (Interface_IPs t) x)) ].

Definition dec_Interfaces : Json.decoder (list Interface) :=
  Json.dec_slice "[]agentpoller.Interface" (mkInterface "" [] "") dec_Interface.

Definition dec_Hostname : Json.decoder Hostname :=
  Json.dec_struct "agentpoller.Hostname"
    [ ("host-name", with_string Hostname_Hostname (fun _ x => mkHostname x)) ].

Definition dec_Timezone : Json.decoder Timezone :=
  Json.dec_struct "agentpoller.Timezone"
    [ ("zone", with_string Timezone_Zone (fun t x => mkTimezone x (Timezone_Offset t)));
      ("offset", with_int Timezone_Offset (fun t x => mkTimezone (Timezone_Zone t) x)) ].

Definition dec_User : Json.decoder User :=
  Json.dec_struct "agentpoller.User"
    [ ("user", with_string User_Name (fun t x =>
         mkUser x (User_Domain t) (User_LoginTime t)));
      ("domain", with_string User_Domain (fun t x =>
         mkUser (User_Name t) x (User_LoginTime t)));
      ("login-time", fun v t =>
         let '(x, e) := Json.dec_float v (User_LoginTime t) in
         (mkUser (User_Name t) (User_Domain t) x, e)) ].

Definition dec_Users : Json.decoder (list User) :=
  Json.dec_slice "[]agentpoller.User" (mkUser "" "" "0") dec_User.

Definition dec_Filesystem : Json.decoder Filesystem :=
  Json.dec_struct "agentpoller.Filesystem"
    [ ("name", with_string Filesystem_Name (fun t x =>
         mkFilesystem x (Filesystem_Mountpoint t) (Filesystem_Type t)
           (Filesystem_UsedBytes t) (Filesystem_TotalBytes t)));
      ("mountpoint", with_string Filesystem_Mountpoint (fun t x =>
         mkFilesystem (Filesystem_Name t) x (Filesystem_Type t)
           (Filesystem_UsedBytes t) (Filesystem_TotalBytes t)));
      ("type", with_string Filesystem_Type (fun t x =>
         mkFilesystem (Filesystem_Name t) (Filesystem_Mountpoint t) x
           (Filesystem_UsedBytes t) (Filesystem_TotalBytes t)));
      ("used-bytes", with_int Filesystem_UsedBytes (fun t x =>
         mkFilesystem (Filesystem_Name t) (Filesystem_Mountpoint t) (Filesystem_Type t)
           x (Filesystem_TotalBytes t)));
      ("total-bytes", with_int Filesystem_TotalBytes (fun t x =>
         mkFilesystem (Filesystem_Name t) (Filesystem_Mountpoint t) (Filesystem_Type t)
           (Filesystem_UsedBytes t) x)) ].

Definition dec_Filesystems : Json.decoder (list Filesystem) :=
  Json.dec_slice "[]agentpoller.Filesystem" (mkFilesystem "" "" "" 0 0) dec_Filesystem.

Definition dec_CommandInfo : Json.decoder GuestAgentCommandInfo :=
  Json.dec_struct "v1.GuestAgentCommandInfo"
    [ ("name", with_string Command_Name (fun t x => mkCommandInfo x (Command_Enabled t)));
      ("enabled", fun v t =>
         let '(x, e) := Json.dec_bool v (Command_Enabled t) in
         (mkCommandInfo (Command_Name t) x, e)) ].

Definition dec_AgentInfo : Json.decoder AgentInfo :=
  Json.dec_struct "agentpoller.AgentInfo"
    [ ("version", with_string AgentInfo_Version (fun t x =>
         mkAgentInfo x (AgentInfo_SupportedCommands t)));
      ("supported_commands", fun v t =>
         let '(x, e) :=
           Json.dec_slice "[]v1.GuestAgentCommandInfo" (mkCommandInfo "" false)
             dec_CommandInfo v (AgentInfo_SupportedCommands t) in
         (mkAgentInfo (AgentInfo_Version t) x, e)) ].

(** *** Stripping the reply's wrapping *)

Definition any_char : Regexp.regex := Regexp.Cls (fun _ => true).
Definition spaces : Regexp.regex := Regexp.Star (Regexp.Cls Chars.is_space).

Definition return_key : string :=
  String Chars.dquote ("return" ++ String Chars.dquote ":").

(** [stripRE]: an opening brace, white space, the quoted key [return] and
    a colon, white space, then as group 1 an opening brace or bracket, any
    text and a closing brace or bracket, white space, a closing brace. *)
Definition stripRE : Regexp.regex :=
  let opening := Regexp.Cls (fun c => Ascii.eqb c "{" || Ascii.eqb c "[") in
  let closing := Regexp.Cls (fun c => Ascii.eqb c "}" || Ascii.eqb c "]") in
  Regexp.Cat (Regexp.Lit "{")
    (Regexp.Cat spaces
       (Regexp.Cat (Regexp.Str return_key)
          (Regexp.Cat spaces
             (Regexp.Cat
                (Regexp.Group 1
                   (Regexp.Cat opening (Regexp.Cat (Regexp.Star any_char) closing)))
                (Regexp.Cat spaces (Regexp.Lit "}")))))).

(** [stripStringRE]: the same wrapping around a quoted text, the text
    between the quotes being group 1. *)
Definition stripStringRE : Regexp.regex :=
  Regexp.Cat (Regexp.Lit "{")
    (Regexp.Cat spaces
       (Regexp.Cat (Regexp.Str return_key)
          (Regexp.Cat spaces
             (Regexp.Cat (Regexp.Lit Chars.dquote)
                (Regexp.Cat (Regexp.Group 1 (Regexp.Star any_char))
                   (Regexp.Cat (Regexp.Lit Chars.dquote)
                      (Regexp.Cat spaces (Regexp.Lit "}")))))))).

Definition index_out_of_range : string := "runtime error: index out of range".

(** Indexing a slice: out of range is a run-time panic. *)
Definition index (l : list string) (i : nat) : GoResult string :=
  match nth_error l i with
  | Some x => Returns x
  | None => Panics index_out_of_range
  end.

(** [stripAgentResponse]: element 1 of the submatches, whatever their number. *)
Definition stripAgentResponse (agentReply : string) : GoResult string :=
  index (default [] (Regexp.FindStringSubmatch stripRE 1 agentReply)) 1.

(** [stripAgentStringResponse]: guarded by the length of the submatches. *)
Definition stripAgentStringResponse (agentReply : string) : string :=
  let result := default [] (Regexp.FindStringSubmatch stripStringRE 1 agentReply) in
  if Nat.ltb (length result) 2 then ""
  else nth 1 result "".

(** *** [virtwrap/api]: the records handed on *)

(** [netvmispec.InfoSource...]; [InfoSourceUnset] is the field's zero value. *)
Inductive InfoSource : Type :=
| InfoSourceUnset
| InfoSourceDomain
| InfoSourceGuestAgent
| InfoSourceDomainAndGA.

(** [api.InterfaceStatus]. *)
Record InterfaceStatus : Type := mkInterfaceStatus {
  Name : string;
  Mac : string;
  Ip : string;
  IPs : list string;
  InterfaceName : string;
  Source : InfoSource
}.

(** [api.Interface] of the domain, as the merge reads it: [ifc.MAC.MAC] and
    [ifc.Alias.GetName()]. *)
Record DomainInterface : Type := mkDomainInterface {
  DomainInterface_MAC : string;
  DomainInterface_Alias : string
}.

Record ApiGuestOSInfo : Type := mkApiGuestOSInfo {
  api_Name : string;
  api_KernelRelease : string;
  api_Version : string;
  api_PrettyName : string;
  api_VersionId : string;
  api_KernelVersion : string;
  api_Machine : string;
  api_Id : string
}.

Record ApiTimezone : Type := mkApiTimezone {
  api_Zone : string;
  api_Offset : Z
}.

Record ApiFilesystem : Type := mkApiFilesystem {
  api_fs_Name : string;
  api_fs_Mountpoint : string;
  api_fs_Type : string;
  api_fs_TotalBytes : Z;
  api_fs_UsedBytes : Z
}.

Record ApiUser : Type := mkApiUser {
  api_user_Name : string;
  api_user_Domain : string;
  api_user_LoginTime : string
}.

Record ApiFSFreeze : Type := mkApiFSFreeze { api_Status : string }.

(** *** Interface statuses from the agent's interfaces *)

Fixpoint extractIPs_loop (ipAddresses : list IP) (interfaceIP : string)
    (interfaceIPs : list string) : string * list string :=
  match ipAddresses with
  | [] => (interfaceIP, interfaceIPs)
  | ipAddr :: rest =>
      let ip := IP_IP ipAddr in
      let interfaceIP' :=
        if String.eqb (IP_Type ipAddr) "ipv4" && String.eqb interfaceIP ""
        then ip else interfaceIP in
      extractIPs_loop rest interfaceIP' (interfaceIPs ++ [ip])
  end.

Definition extractIPs (ipAddresses : list IP) : string * list string :=
  let '(interfaceIP, interfaceIPs) := extractIPs_loop ipAddresses "" [] in
  if String.eqb interfaceIP "" && Nat.ltb 0 (length interfaceIPs)
  then (nth 0 interfaceIPs "", interfaceIPs)
  else (interfaceIP, interfaceIPs).

Fixpoint convertInterfaceStatusesFromAgentJSON (agentResult : list Interface)
    : list InterfaceStatus :=
  match agentResult with
  | [] => []
  | ifc :: rest =>
      if String.eqb (Interface_Name ifc) "lo"
      then convertInterfaceStatusesFromAgentJSON rest
      else
        let '(interfaceIP, interfaceIPs) := extractIPs (Interface_IPs ifc) in
        mkInterfaceStatus "" (Interface_MAC ifc) interfaceIP interfaceIPs
          (Interface_Name ifc) InfoSourceUnset
        :: convertInterfaceStatusesFromAgentJSON rest
  end.

(** *** The parsers of the replies *)

Definition bind {A B : Type} (r : GoResult A) (k : A -> GoResult B) : GoResult B :=
  match r with
  | Returns a => k a
  | Panics msg => Panics msg
  end.

Definition parseGuestOSInfo (agentReply : string)
    : GoResult (ApiGuestOSInfo * option string) :=
  let guestOSInfo := mkGuestOsInfo "" "" "" "" "" "" "" "" in
  bind (stripAgentResponse agentReply) (fun response =>
  let '(guestOSInfo, err) := Json.Unmarshal dec_GuestOsInfo response guestOSInfo in
  match err with
  | Some e => Returns (mkApiGuestOSInfo "" "" "" "" "" "" "" "", Some e)
  | None =>
      Returns (mkApiGuestOSInfo (os_Name guestOSInfo) (os_KernelRelease guestOSInfo)
                 (os_Version guestOSInfo) (os_PrettyName guestOSInfo)
                 (os_VersionId guestOSInfo) (os_KernelVersion guestOSInfo)
                 (os_Machine guestOSInfo) (os_Id guestOSInfo), None)
  end).

Definition parseInterfaces (agentReply : string)
    : GoResult (list InterfaceStatus * option string) :=
  let interfaces : list Interface := [] in
  bind (stripAgentResponse agentReply) (fun response =>
  let '(interfaces, err) := Json.Unmarshal dec_Interfaces response interfaces in
  match err with
  | Some e => Returns ([], Some e)
  | None => Returns (convertInterfaceStatusesFromAgentJSON interfaces, None)
  end).

Definition parseHostname (agentReply : string) : GoResult (string * option string) :=
  let result := mkHostname "" in
  bind (stripAgentResponse agentReply) (fun response =>
  let '(result, err) := Json.Unmarshal dec_Hostname response result in
  match err with
  | Some e => Returns ("", Some e)
  | None => Returns (Hostname_Hostname result, None)
  end).

Definition ParseFSFreezeStatus (agentReply : string) : ApiFSFreeze * option string :=
  let response := stripAgentStringResponse agentReply in
  if String.eqb response ""
  then (mkApiFSFreeze "", Some ("Failed to strip FSFreeze status: " ++ agentReply)%string)
  else (mkApiFSFreeze response, None).

Definition parseTimezone (agentReply : string) : GoResult (ApiTimezone * option string) :=
  let result := mkTimezone "" 0 in
  bind (stripAgentResponse agentReply) (fun response =>
  let '(result, err) := Json.Unmarshal dec_Timezone response result in
  match err with
  | Some e => Returns (mkApiTimezone "" 0, Some e)
  | None => Returns (mkApiTimezone (Timezone_Zone result) (Timezone_Offset result), None)
  end).

Definition parseFilesystem (agentReply : string)
    : GoResult (list ApiFilesystem * option string) :=
  let result : list Filesystem := [] in
  bind (stripAgentResponse agentReply) (fun response =>
  let '(result, err) := Json.Unmarshal dec_Filesystems response result in
  match err with
  | Some e => Returns ([], Some e)
  | None =>
      Returns (List.map (fun fs =>
                 mkApiFilesystem (Filesystem_Name fs) (Filesystem_Mountpoint fs)
                   (Filesystem_Type fs) (Filesystem_TotalBytes fs)
                   (Filesystem_UsedBytes fs)) result, None)
  end).

Definition parseUsers (agentReply : string) : GoResult (list ApiUser * option string) :=
  let result : list User := [] in
  bind (stripAgentResponse agentReply) (fun response =>
  let '(result, err) := Json.Unmarshal dec_Users response result in
  match err with
  | Some e => Returns ([], Some e)
  | None =>
      Returns (List.map (fun user =>
                 mkApiUser (User_Name user) (User_Domain user) (User_LoginTime user))
                 result, None)
  end).

Definition parseAgent (agentReply : string) : GoResult (AgentInfo * option string) :=
  let gaInfo := mkAgentInfo "" [] in
  bind (stripAgentResponse agentReply) (fun response =>
  let '(gaInfo, err) := Json.Unmarshal dec_AgentInfo response gaInfo in
  match err with
  | Some e => Returns (mkAgentInfo "" [], Some e)
  | None => Returns (gaInfo, None)
  end).

(** *** Merging the agent's statuses with the domain's interfaces *)

(** The first loop: the map from MAC to alias; a later interface with the
    same MAC replaces an earlier one. *)
Definition aliasByMac (domInterfaces : list DomainInterface) : gmap string string :=
  fold_left
    (fun m ifc => <[DomainInterface_MAC ifc := DomainInterface_Alias ifc]> m)
    domInterfaces ∅.

(** The second loop: each status is tagged in place and the aliases that
    matched are collected. *)
Fixpoint tagStatuses (m : gmap string string) (interfaceStatuses : list InterfaceStatus)
    (aliasesCoveredByAgent : list string) : list InterfaceStatus * list string :=
  match interfaceStatuses with
  | [] => ([], aliasesCoveredByAgent)
  | interfaceStatus :: rest =>
      match m !! Mac interfaceStatus with
      | Some alias =>
          let '(rest', covered) := tagStatuses m rest (aliasesCoveredByAgent ++ [alias]) in
          (mkInterfaceStatus alias (Mac interfaceStatus) (Ip interfaceStatus)
             (IPs interfaceStatus) (InterfaceName interfaceStatus) InfoSourceDomainAndGA
           :: rest', covered)
      | None =>
          let '(rest', covered) := tagStatuses m rest aliasesCoveredByAgent in
          (mkInterfaceStatus (Name interfaceStatus) (Mac interfaceStatus)
             (Ip interfaceStatus) (IPs interfaceStatus) (InterfaceName interfaceStatus)
             InfoSourceGuestAgent
           :: rest', covered)
      end
  end.

Definition domainStatus (mac alias : string) : InterfaceStatus :=
  mkInterfaceStatus alias mac "" [] "" InfoSourceDomain.

(** The third loop, over the entries of the map in the order [entries]:
    each entry whose alias was not collected is appended. *)
Fixpoint appendUncovered (entries : list (string * string))
    (aliasesCoveredByAgent : list string) : list InterfaceStatus :=
  match entries with
  | [] => []
  | (mac, alias) :: rest =>
      if existsb (String.eqb alias) aliasesCoveredByAgent
      then appendUncovered rest aliasesCoveredByAgent
      else domainStatus mac alias :: appendUncovered rest aliasesCoveredByAgent
  end.

(** Go leaves the order in which a map is ranged over unspecified, so the
    merge is given the order as [entries], a permutation of the map's
    entries. *)
Definition mergeInOrder (entries : list (string * string))
    (domInterfaces : list DomainInterface) (interfaceStatuses : list InterfaceStatus)
    : list InterfaceStatus :=
  let '(tagged, covered) := tagStatuses (aliasByMac domInterfaces) interfaceStatuses [] in
  tagged ++ appendUncovered entries covered.


(** [MergeAgentStatusesWithDomainData], ranging over the map in stdpp's order. *)
Definition MergeAgentStatusesWithDomainData (domInterfaces : list DomainInterface)
    (interfaceStatuses : list InterfaceStatus) : list InterfaceStatus :=
  mergeInOrder (map_to_list (aliasByMac domInterfaces)) domInterfaces interfaceStatuses.

(** *** The merge as the specification words it *)




(** An alias is covered when some status carries a MAC the map sends to it. *)
Definition covered (m : gmap string string) (statuses : list InterfaceStatus)
    (alias : string) : Prop :=
  exists st, In st statuses /\ m !! Mac st = Some alias.





End AgentPoller.

(** ** [pkg/network/ndp]: the router advertiser *)

Module Ndp.

(** [time.Duration], in nanoseconds. *)
Definition Duration : Type := Z.
Definition Second : Duration := 1000000000%Z.
Definition Minute : Duration := (60 * Second)%Z.

(** [ndp.Infinity]: the largest 32-bit number of seconds. *)
Definition Infinity : Duration := (4294967295 * Second)%Z.

Definition routerAdvertisementMaxLifetime : Duration := (65535 * Second)%Z.
Definition routerAdvertisementPeriod : Duration := (1 * Minute)%Z.

(** [net.IPv6linklocalallnodes], ff02::1. *)
Definition IPv6linklocalallnodes : Net.IP :=
  [255; 2; 0; 0; 0; 0; 0; 0; 0; 0; 0; 0; 0; 0; 0; 1]%Z.

Inductive Direction : Type := Source | Target.

(** [ndp.Option], the two kinds the advertiser prepares. *)
Inductive Option : Type :=
| PrefixInformation (PrefixLength : Z) (OnLink AutonomousAddressConfiguration : bool)
    (ValidLifetime PreferredLifetime : Duration) (Prefix : Net.IP)
| LinkLayerAddress (Dir : Direction) (Addr : list Z).

(** [ndp.RouterAdvertisement], the fields the advertiser sets. *)
Record RouterAdvertisement : Type := mkRA {
  ManagedConfiguration : bool;
  OtherConfiguration : bool;
  RouterLifetime : Duration;
  ReachableTime : Duration;
  Options : list Option
}.

(** [ndp.Message]: the four kinds of message of the library. *)
Inductive Message : Type :=
| MsgRouterSolicitation (opts : list Option)
| MsgRouterAdvertisement (ra : RouterAdvertisement)
| MsgNeighborSolicitation (target : Net.IP)
| MsgNeighborAdvertisement (target : Net.IP).

Definition isRouterSolicitation (m : Message) : bool :=
  match m with
  | MsgRouterSolicitation _ => true
  | _ => false
  end.

Record RouterAdvertiser : Type := mkRouterAdvertiser {
  raOptions : list Option
}.

Definition prepareRAOptions (prefix : Net.IP) (prefixLength : Z) (routerMACAddr : list Z)
    : list Option :=
  let prefixInfo := PrefixInformation prefixLength true false Infinity Infinity prefix in
  let sourceLinkLayerAddr := LinkLayerAddress Source routerMACAddr in
  [prefixInfo; sourceLinkLayerAddr].

(** What [ndpConn.ReadFrom] returns: an error or a message. *)
Definition ReadResult : Type := string + Message.

(** The calls on the connection, with what they returned. *)
Inductive Event : Type :=
| EvReadFrom (result : ReadResult)
| EvWriteTo (msg : Message) (dst : Net.IP) (result : option string).

(** The connection as the loop sees it: the results of the successive
    reads, as far as they are known, and the result of the [n]-th write. *)
Record Connection : Type := mkConnection {
  reads : list ReadResult;
  writes : nat -> option string
}.

(** How far an execution got: it returned, or it is waiting in [ReadFrom]
    for a message beyond the known ones. *)
Inductive Outcome : Type :=
| Returned (err : string)
| WaitingForRead.

(** [SendRouterAdvertisement], given the result of [ndpConn.WriteTo]. *)
Definition SendRouterAdvertisement (rad : RouterAdvertiser) (writeResult : option string)
    : Event * option string :=
  let ra := mkRA true true routerAdvertisementMaxLifetime Infinity (raOptions rad) in
  (EvWriteTo (MsgRouterAdvertisement ra) IPv6linklocalallnodes writeResult,
   match writeResult with
   | Some err => Some ("failed to send router advertisement: " ++ err)%string
   | None => None
   end).

(** The loop of [Serve]; [sent] counts the writes made so far. *)
Fixpoint Serve_loop (rad : RouterAdvertiser) (writes : nat -> option string)
    (sent : nat) (reads : list ReadResult) : list Event * Outcome :=
  match reads with
  | [] => ([], WaitingForRead)
  | inl err :: _ => ([EvReadFrom (inl err)], Returned err)
  | inr msg :: rest =>
      match msg with
      | MsgRouterSolicitation _ =>
          let '(ev, err) := SendRouterAdvertisement rad (writes sent) in
          match err with
          | Some e => ([EvReadFrom (inr msg); ev], Returned e)
          | None =>
              let '(evs, out) := Serve_loop rad writes (S sent) rest in
              (EvReadFrom (inr msg) :: ev :: evs, out)
          end
      | _ =>
          let '(evs, out) := Serve_loop rad writes sent rest in
          (EvReadFrom (inr msg) :: evs, out)
      end
  end.

Definition Serve (rad : RouterAdvertiser) (conn : Connection) : list Event * Outcome :=
  Serve_loop rad (writes conn) 0 (reads conn).

(** *** The loop as the specification words it *)

(** The advertisement a solicitation is answered with. *)
Definition solicitedAdvertisement (rad : RouterAdvertiser) : Message :=
  MsgRouterAdvertisement (mkRA true true (65535 * Second)%Z Infinity (raOptions rad)).

Definition isWrite (e : Event) : bool :=
  match e with
  | EvWriteTo _ _ _ => true
  | EvReadFrom _ => false
  end.

Definition startsWithWrite (t : list Event) : bool :=
  match t with
  | e :: _ => isWrite e
  | [] => false
  end.

(** A trace is well formed when every read of a solicitation is followed at
    once by one write of the solicited advertisement to the all-nodes
    address, a failed write being the last event; every read of another
    message is followed by no write; and a failed read is the last event. *)
Fixpoint wellFormed (rad : RouterAdvertiser) (t : list Event) : Prop :=
  match t with
  | [] => True
  | EvReadFrom (inl _) :: rest => rest = []
  | EvReadFrom (inr (MsgRouterSolicitation _)) :: rest =>
      match rest with
      | EvWriteTo msg dst result :: rest' =>
          msg = solicitedAdvertisement rad /\ dst = IPv6linklocalallnodes /\
          startsWithWrite rest' = false /\
          (result <> None -> rest' = []) /\
          wellFormed rad rest'
      | _ => False
      end
  | EvReadFrom (inr _) :: rest => startsWithWrite rest = false /\ wellFormed rad rest
  | EvWriteTo _ _ _ :: _ => False
  end.

Definition readResults (t : list Event) : list ReadResult :=
  List.flat_map (fun e => match e with EvReadFrom r => [r] | _ => [] end) t.

Definition countWrites (t : list Event) : nat :=
  length (List.filter isWrite t).

Definition countSolicitations (t : list Event) : nat :=
  length (List.filter
            (fun r => match r with inr m => isRouterSolicitation m | inl _ => false end)
            (readResults t)).

(** The first failed read among the known ones, with the reads before it. *)
Fixpoint firstReadError (reads : list ReadResult) : option (list ReadResult * string) :=
  match reads with
  | [] => None
  | inl err :: _ => Some ([], err)
  | inr m :: rest =>
      match firstReadError rest with
      | Some (before, err) => Some (inr m :: before, err)
      | None => None
      end
  end.

End Ndp.

(** ** [vishvananda/netlink] and [coreos/go-iptables]: the data handed to the handler *)

Module Netlink.

Definition HardwareAddr : Type := list Z.

Inductive Family : Type := FAMILY_V4 | FAMILY_V6.

Inductive Protocol : Type := ProtocolIPv4 | ProtocolIPv6.

Definition FLAG_ONLINK : Z := 4.
Definition SCOPE_UNIVERSE : Z := 0.
Definition SCOPE_HOST : Z := 254.
Definition NUD_NONE : Z := 0.
Definition NUD_PERMANENT : Z := 128.
Definition NTF_NONE : Z := 0.
Definition NTF_PROXY : Z := 8.

(** [net.IPNet]. *)
Record IPNet : Type := mkIPNet {
  IPNet_IP : Net.IP;
  IPNet_Mask : list Z
}.

(** [net.CIDRMask(ones, bits)] for [ones = bits]: all bits set. *)
Definition CIDRMask_full (len : nat) : list Z := List.repeat 255%Z len.

(** [netlink.Addr]: the address and its mask. *)
Record Addr : Type := mkAddr {
  Addr_IP : Net.IP;
  Addr_Mask : list Z
}.

Definition Addr_zero : Addr := mkAddr [] [].

(** [netlink.Link], through its attributes. *)
Record Link : Type := mkLink {
  Link_Name : string;
  Link_Index : Z;
  Link_MTU : Z;
  Link_HardwareAddr : HardwareAddr
}.

(** [&netlink.Bridge{LinkAttrs: netlink.LinkAttrs{Name: name}}]. *)
Definition Bridge (name : string) : Link := mkLink name 0 0 [].

Record Route : Type := mkRoute {
  Route_LinkIndex : Z;
  Route_Scope : Z;
  Route_Flags : Z;
  Route_Dst : option IPNet;
  Route_Gw : Net.IP
}.

Record Neigh : Type := mkNeigh {
  Neigh_LinkIndex : Z;
  Neigh_Family : Family;
  Neigh_State : Z;
  Neigh_Flags : Z;
  Neigh_IP : Net.IP;
  Neigh_HardwareAddr : HardwareAddr
}.

(** [net.HardwareAddr.String]: each byte as two lower-case hexadecimal
    digits, the bytes separated by colons; the empty text for an address
    without bytes. *)
Definition hexDigit (n : Z) : ascii :=
  nth (Z.to_nat n) (list_ascii_of_string "0123456789abcdef") "0"%char.

Fixpoint HardwareAddr_String_loop (i : nat) (a : HardwareAddr) : string :=
  match a with
  | [] => ""
  | b :: rest =>
      ((if Nat.ltb 0 i then ":" else "")
         ++ String (hexDigit (Z.shiftr b 4)) (String (hexDigit (Z.land b 15)) "")
         ++ HardwareAddr_String_loop (S i) rest)%string
  end.

Definition HardwareAddr_String (a : HardwareAddr) : string :=
  if Nat.eqb (length a) 0 then "" else HardwareAddr_String_loop 0 a.

End Netlink.

(** ** [pkg/network/driver]: the network handler

    The handler is the capability interface through which the configurator
    reads and changes the pod's network state.  Each call is recorded, and
    the handler's answer may depend on the calls made before. *)

Module Driver.
Import Netlink.

(** A call on the handler, with its arguments.  A [netlink.Link] argument
    is an interface value and may be nil. *)
Inductive Call : Type :=
| CLinkByName (name : string)
| CReadIPv4AndIPv6AddrFromLink (name : string)
| CEnableIPv6Flags
| CRouteList (link : option Link) (family : Family)
| CGetDefaultGateway (family : Family)
| CLinkSetDown (link : option Link)
| CAddrDel (link : option Link) (addr : Addr)
| CSetRandomMac (name : string)
| CLinkSetUp (link : option Link)
| CCreateTapDevice (name : string) (queues pid mtu : Z) (owner : string)
| CLinkAdd (link : Link)
| CLinkSetMaster (link : option Link) (master : Link)
| CParseAddr (s : string)
| CAddrAdd (link : Link) (addr : option Addr)
| CConfigureIpForwarding (proto : Protocol)
| CNftablesLoad (proto : Protocol)
| CNftablesAppendRule (proto : Protocol) (table chain : string) (rulespec : list string)
| CHasNatIptables (proto : Protocol)
| CIptablesAppendRule (proto : Protocol) (table chain : string) (rulespec : list string)
| CRouteAdd (route : Route)
| CNeighAdd (neigh : Neigh)
| CEnableIpv4ArpProxyOnIface (name : string)
| CEnableIpv6NdpProxyForAll
| CEnableIpv6NdpProxyOnIface (name : string).

Definition Log : Type := list Call.

(** [netdriver.NetworkHandler]: what each method answers, given the calls
    made so far.  An [option string] is Go's [error], [None] being nil. *)
Record NetworkHandler : Type := mkHandler {
  LinkByName : Log -> string -> string + Link;
  ReadIPv4AndIPv6AddrFromLink : Log -> string -> string + (option Addr * option Addr);
  EnableIPv6Flags : Log -> option string;
  RouteList : Log -> option Link -> Family -> string + list Route;
  GetDefaultGateway : Log -> Family -> string + Net.IP;
  LinkSetDown : Log -> option Link -> option string;
  AddrDel : Log -> option Link -> Addr -> option string;
  SetRandomMac : Log -> string -> string + HardwareAddr;
  LinkSetUp : Log -> option Link -> option string;
  CreateTapDevice : Log -> string -> Z -> Z -> Z -> string -> option string;
  LinkAdd : Log -> Link -> option string;
  LinkSetMaster : Log -> option Link -> Link -> option string;
  ParseAddr : Log -> string -> option Addr;
  AddrAdd : Log -> Link -> option Addr -> option string;
  ConfigureIpForwarding : Log -> Protocol -> option string;
  NftablesLoad : Log -> Protocol -> option string;
  NftablesAppendRule : Log -> Protocol -> string -> string -> list string -> option string;
  HasNatIptables : Log -> Protocol -> bool;
  IptablesAppendRule : Log -> Protocol -> string -> string -> list string -> option string;
  RouteAdd : Log -> Route -> option string;
  NeighAdd : Log -> Neigh -> option string;
  EnableIpv4ArpProxyOnIface : Log -> string -> option string;
  EnableIpv6NdpProxyForAll : Log -> option string;
  EnableIpv6NdpProxyOnIface : Log -> string -> option string
}.

(** Modelled from the spec: the handler's implementation is outside the
    files at hand.  These calls only read the host's state (the link, its
    addresses and routes, the default gateway, the presence of the NAT
    table) or parse a text; every other call changes the host's state
    (links, addresses, routes, neighbours, sysctl flags, NAT rules). *)
Definition readOnly (c : Call) : bool :=
  match c with
  | CLinkByName _ | CReadIPv4AndIPv6AddrFromLink _ | CRouteList _ _
  | CGetDefaultGateway _ | CParseAddr _ | CHasNatIptables _ => true
  | _ => false
  end.

Definition mutations (log : Log) : Log := List.filter (fun c => negb (readOnly c)) log.

End Driver.

(** ** [pkg/network/infraconfigurators]: the router-mode configurator *)

Module Router.
Import Netlink Driver.

(** [cache.DHCPConfig], the fields the configurator fills in. *)
Record DHCPConfig : Type := mkDHCPConfig {
  DHCP_MAC : HardwareAddr;
  DHCP_IPAMDisabled : bool;
  DHCP_IP : Addr;
  DHCP_Routes : option (list Route);
  DHCP_Gateway : Net.IP;
  DHCP_IPv6 : Addr;
  DHCP_IPv6Routes : option (list Route);
  DHCP_IPv6Gateway : Net.IP
}.

(** Functions and constants of the repository and of its libraries that the
    configurator uses and that are defined outside the files at hand. *)
Record Externals : Type := mkExternals {
  (** [virtnetlink.GenerateTapDeviceName] *)
  GenerateTapDeviceName : string -> string;
  (** [virtnetlink.GenerateInPodBridgeInterfaceName] *)
  GenerateInPodBridgeInterfaceName : string -> string;
  (** [virtnetlink.RetrieveMacAddressFromVMISpecIface]: an error, or the
      MAC of the spec, nil when the spec gives none *)
  RetrieveMacAddressFromVMISpecIface : V1.Interface -> string + option HardwareAddr;
  (** [virtnetlink.FilterPodNetworkRoutes] *)
  FilterPodNetworkRoutes : list Route -> DHCPConfig -> list Route;
  (** [converter.CalculateNetworkQueues] *)
  CalculateNetworkQueues : V1.VirtualMachineInstance -> Z;
  (** [util.IsNonRootVMI] *)
  IsNonRootVMI : V1.VirtualMachineInstance -> bool;
  (** [netdriver.LibvirtUserAndGroupId] and [util.NonRootUID] *)
  LibvirtUserAndGroupId : string;
  NonRootUID : Z;
  (** [netdriver.DefaultIPv4Dst] and [netdriver.DefaultIPv6Dst] *)
  DefaultIPv4Dst : IPNet;
  DefaultIPv6Dst : IPNet;
  (** [net.IP.String] *)
  IP_String : Net.IP -> string;
  (** [netlink.ParseAddr]: nil when the text does not parse *)
  netlink_ParseAddr : string -> option Addr
}.

(** [_, localIPv4Addr, _ = net.ParseCIDR("169.254.75.1/32")]. *)
Definition localIPv4Addr : IPNet :=
  mkIPNet [169; 254; 75; 1]%Z (CIDRMask_full Net.IPv4len).

Definition localIPv4Addr_String : string := "169.254.75.1/32".

(** [_, localIPv6Addr, _ =
     net.ParseCIDR("fc00:eeee:eeee:eeee:eeee:eeee:eeee:eeee/128")]. *)
Definition localIPv6Addr : IPNet :=
  mkIPNet [252; 0; 238; 238; 238; 238; 238; 238; 238; 238; 238; 238; 238; 238; 238; 238]%Z
    (CIDRMask_full Net.IPv6len).

Definition localIPv6Addr_String : string :=
  "fc00:eeee:eeee:eeee:eeee:eeee:eeee:eeee/128".

(** [gatewayMacAddress, _ = net.ParseMAC("ee:ee:ee:ee:ee:ee")]. *)
Definition gatewayMacAddress : HardwareAddr := [238; 238; 238; 238; 238; 238]%Z.

(** [strconv.Itoa] and [fmt.Sprintf("%d", n)]. *)
Definition Itoa (n : Z) : string := NilZero.string_of_int (Z.to_int n).

Record RouterPodNetworkConfigurator : Type := mkConfigurator {
  vmi : V1.VirtualMachineInstance;
  vmiSpecIface : V1.Interface;
  ipv4Enabled : bool;
  ipv6Enabled : bool;
  launcherPID : Z;
  vmMac : option HardwareAddr;
  podNicLink : option Link;
  tapDeviceName : string;
  tapNicLink : option Link;
  bridgeDeviceName : string;
  bridgeLink : option Link;
  podIfaceIPv4Routes : list Route;
  podIPv4Addr : Addr;
  podIfaceIPv6Routes : list Route;
  podIPv6Addr : Addr;
  defaultIPv4Gateway : Net.IP;
  defaultIPv6Gateway : Net.IP
}.

Definition NewRouterPodNetworkConfigurator (vmi : V1.VirtualMachineInstance)
    (vmiSpecIface : V1.Interface) (launcherPID : Z) : RouterPodNetworkConfigurator :=
  mkConfigurator vmi vmiSpecIface false false launcherPID None None "" None "" None
    [] Addr_zero [] Addr_zero [] [].

(** *** Assignments to the fields *)

Definition set_podNicLink (v : option Link) (b : RouterPodNetworkConfigurator) :=
  mkConfigurator (vmi b) (vmiSpecIface b) (ipv4Enabled b) (ipv6Enabled b) (launcherPID b)
    (vmMac b) v (tapDeviceName b) (tapNicLink b) (bridgeDeviceName b) (bridgeLink b)
    (podIfaceIPv4Routes b) (podIPv4Addr b) (podIfaceIPv6Routes b) (podIPv6Addr b)
    (defaultIPv4Gateway b) (defaultIPv6Gateway b).

Definition set_ipv4 (a : Addr) (b : RouterPodNetworkConfigurator) :=
  mkConfigurator (vmi b) (vmiSpecIface b) true (ipv6Enabled b) (launcherPID b)
    (vmMac b) (podNicLink b) (tapDeviceName b) (tapNicLink b) (bridgeDeviceName b)
    (bridgeLink b) (podIfaceIPv4Routes b) a (podIfaceIPv6Routes b) (podIPv6Addr b)
    (defaultIPv4Gateway b) (defaultIPv6Gateway b).

Definition set_ipv6 (a : Addr) (b : RouterPodNetworkConfigurator) :=
  mkConfigurator (vmi b) (vmiSpecIface b) (ipv4Enabled b) true (launcherPID b)
    (vmMac b) (podNicLink b) (tapDeviceName b) (tapNicLink b) (bridgeDeviceName b)
    (bridgeLink b) (podIfaceIPv4Routes b) (podIPv4Addr b) (podIfaceIPv6Routes b) a
    (defaultIPv4Gateway b) (defaultIPv6Gateway b).

Definition set_vmMac (v : option HardwareAddr) (b : RouterPodNetworkConfigurator) :=
  mkConfigurator (vmi b) (vmiSpecIface b) (ipv4Enabled b) (ipv6Enabled b) (launcherPID b)
    v (podNicLink b) (tapDeviceName b) (tapNicLink b) (bridgeDeviceName b) (bridgeLink b)
    (podIfaceIPv4Routes b) (podIPv4Addr b) (podIfaceIPv6Routes b) (podIPv6Addr b)
    (defaultIPv4Gateway b) (defaultIPv6Gateway b).

Definition set_tapDeviceName (v : string) (b : RouterPodNetworkConfigurator) :=
  mkConfigurator (vmi b) (vmiSpecIface b) (ipv4Enabled b) (ipv6Enabled b) (launcherPID b)
    (vmMac b) (podNicLink b) v (tapNicLink b) (bridgeDeviceName b) (bridgeLink b)
    (podIfaceIPv4Routes b) (podIPv4Addr b) (podIfaceIPv6Routes b) (podIPv6Addr b)
    (defaultIPv4Gateway b) (defaultIPv6Gateway b).

Definition set_tapNicLink (v : option Link) (b : RouterPodNetworkConfigurator) :=
  mkConfigurator (vmi b) (vmiSpecIface b) (ipv4Enabled b) (ipv6Enabled b) (launcherPID b)
    (vmMac b) (podNicLink b) (tapDeviceName b) v (bridgeDeviceName b) (bridgeLink b)
    (podIfaceIPv4Routes b) (podIPv4Addr b) (podIfaceIPv6Routes b) (podIPv6Addr b)
    (defaultIPv4Gateway b) (defaultIPv6Gateway b).

Definition set_bridgeDeviceName (v : string) (b : RouterPodNetworkConfigurator) :=
  mkConfigurator (vmi b) (vmiSpecIface b) (ipv4Enabled b) (ipv6Enabled b) (launcherPID b)
    (vmMac b) (podNicLink b) (tapDeviceName b) (tapNicLink b) v (bridgeLink b)
    (podIfaceIPv4Routes b) (podIPv4Addr b) (podIfaceIPv6Routes b) (podIPv6Addr b)
    (defaultIPv4Gateway b) (defaultIPv6Gateway b).

Definition set_bridgeLink (v : option Link) (b : RouterPodNetworkConfigurator) :=
  mkConfigurator (vmi b) (vmiSpecIface b) (ipv4Enabled b) (ipv6Enabled b) (launcherPID b)
    (vmMac b) (podNicLink b) (tapDeviceName b) (tapNicLink b) (bridgeDeviceName b) v
    (podIfaceIPv4Routes b) (podIPv4Addr b) (podIfaceIPv6Routes b) (podIPv6Addr b)
    (defaultIPv4Gateway b) (defaultIPv6Gateway b).

Definition set_podIfaceIPv4Routes (v : list Route) (b : RouterPodNetworkConfigurator) :=
  mkConfigurator (vmi b) (vmiSpecIface b) (ipv4Enabled b) (ipv6Enabled b) (launcherPID b)
    (vmMac b) (podNicLink b) (tapDeviceName b) (tapNicLink b) (bridgeDeviceName b)
    (bridgeLink b) v (podIPv4Addr b) (podIfaceIPv6Routes b) (podIPv6Addr b)
    (defaultIPv4Gateway b) (defaultIPv6Gateway b).

Definition set_podIfaceIPv6Routes (v : list Route) (b : RouterPodNetworkConfigurator) :=
  mkConfigurator (vmi b) (vmiSpecIface b) (ipv4Enabled b) (ipv6Enabled b) (launcherPID b)
    (vmMac b) (podNicLink b) (tapDeviceName b) (tapNicLink b) (bridgeDeviceName b)
    (bridgeLink b) (podIfaceIPv4Routes b) (podIPv4Addr b) v (podIPv6Addr b)
    (defaultIPv4Gateway b) (defaultIPv6Gateway b).

Definition set_defaultIPv4Gateway (v : Net.IP) (b : RouterPodNetworkConfigurator) :=
  mkConfigurator (vmi b) (vmiSpecIface b) (ipv4Enabled b) (ipv6Enabled b) (launcherPID b)
    (vmMac b) (podNicLink b) (tapDeviceName b) (tapNicLink b) (bridgeDeviceName b)
    (bridgeLink b) (podIfaceIPv4Routes b) (podIPv4Addr b) (podIfaceIPv6Routes b)
    (podIPv6Addr b) v (defaultIPv6Gateway b).

Definition set_defaultIPv6Gateway (v : Net.IP) (b : RouterPodNetworkConfigurator) :=
  mkConfigurator (vmi b) (vmiSpecIface b) (ipv4Enabled b) (ipv6Enabled b) (launcherPID b)
    (vmMac b) (podNicLink b) (tapDeviceName b) (tapNicLink b) (bridgeDeviceName b)
    (bridgeLink b) (podIfaceIPv4Routes b) (podIPv4Addr b) (podIfaceIPv6Routes b)
    (podIPv6Addr b) (defaultIPv4Gateway b) v.

(** *** The methods' effects: the configurator's fields and the calls made *)

Record State : Type := mkState {
  cfg : RouterPodNetworkConfigurator;
  log : Log
}.

(** How a method ends: it returns a value (a nil error for [unit]), it
    returns an error, or it panics. *)
Inductive Result (A : Type) : Type :=
| Ok (a : A)
| Fail (err : string)
| Panic (msg : string).

Arguments Ok {A} a.
Arguments Fail {A} err.
Arguments Panic {A} msg.

Definition M (A : Type) : Type := State -> State * Result A.

Definition ret {A : Type} (a : A) : M A := fun s => (s, Ok a).

Definition bind {A B : Type} (m : M A) (k : A -> M B) : M B :=
  fun s =>
    match m s with
    | (s', Ok a) => k a s'
    | (s', Fail err) => (s', Fail err)
    | (s', Panic msg) => (s', Panic msg)
    end.

Notation "x <- m ;; k" := (bind m (fun x => k))
  (at level 100, m at next level, right associativity).
Notation "m ;; k" := (bind m (fun _ => k))
  (at level 100, right associativity).

Definition fail {A : Type} (err : string) : M A := fun s => (s, Fail err).

Definition get : M RouterPodNetworkConfigurator := fun s => (s, Ok (cfg s)).

Definition modify (f : RouterPodNetworkConfigurator -> RouterPodNetworkConfigurator)
    : M unit :=
  fun s => (mkState (f (cfg s)) (log s), Ok tt).

Definition nil_dereference : string :=
  "runtime error: invalid memory address or nil pointer dereference".

(** [link.Attrs()] on a link that may be nil. *)
Definition attrs (link : option Link) : M Link :=
  fun s =>
    match link with
    | Some l => (s, Ok l)
    | None => (s, Panic nil_dereference)
    end.

(** A call on the handler: it is recorded and answered from the record of
    the calls before it. *)
Definition call {A : Type} (c : Call) (answer : Log -> A) : M A :=
  fun s => (mkState (cfg s) (log s ++ [c]), Ok (answer (log s))).

(** A call whose only result is an error: [if err != nil { return err }]. *)
Definition call_err (c : Call) (answer : Log -> option string) : M unit :=
  r <- call c answer ;;
  match r with
  | Some err => fail err
  | None => ret tt
  end.

(** A call that returns a value or an error. *)
Definition call_val {A : Type} (c : Call) (answer : Log -> string + A) : M A :=
  r <- call c answer ;;
  match r with
  | inl err => fail err
  | inr a => ret a
  end.

(** What the error branch of [m] evaluates before it returns the error
    (the arguments of its log line). *)
Definition on_error {A B : Type} (m : M A) (cleanup : M B) : M A :=
  fun s =>
    match m s with
    | (s', Fail err) =>
        match cleanup s' with
        | (s'', Panic msg) => (s'', Panic msg)
        | (s'', _) => (s'', Fail err)
        end
    | r => r
    end.

(** [fmt.Errorf(prefix + "%v", err)] around the error of [m]. *)
Definition wrap_error {A : Type} (prefix : string) (m : M A) : M A :=
  fun s =>
    match m s with
    | (s', Fail err) => (s', Fail (prefix ++ err)%string)
    | r => r
    end.

Definition when (c : bool) (m : M unit) : M unit := if c then m else ret tt.

(** [for _, x := range l { ... }], leaving the loop at the first error. *)
Fixpoint forEach {A : Type} (l : list A) (body : A -> M unit) : M unit :=
  match l with
  | [] => ret tt
  | a :: rest => body a ;; forEach rest body
  end.

Definition isMultiqueue (vmi : V1.VirtualMachineInstance) : bool :=
  match V1.NetworkInterfaceMultiQueue vmi with
  | Some v => v
  | None => false
  end.

Section Methods.

Variable h : NetworkHandler.
Variable x : Externals.

Definition calculateNetworkQueues (vmi : V1.VirtualMachineInstance) : Z :=
  if isMultiqueue vmi then CalculateNetworkQueues x vmi else 0%Z.

Definition no_gateway (link : Link) : string :=
  ("no gateway address found in routes for " ++ Link_Name link)%string.

Definition learnInterfaceRoutes : M unit :=
  b <- get ;;
  when (ipv4Enabled b)
    (routes <- on_error
       (call_val (CRouteList (podNicLink b) FAMILY_V4)
          (fun l => RouteList h l (podNicLink b) FAMILY_V4))
       (attrs (podNicLink b)) ;;
     if Nat.eqb (length routes) 0
     then link <- attrs (podNicLink b) ;; fail (no_gateway link)
     else
       modify (set_podIfaceIPv4Routes routes) ;;
       gw <- wrap_error "failed to get v4 gateway: "
         (call_val (CGetDefaultGateway FAMILY_V4)
            (fun l => GetDefaultGateway h l FAMILY_V4)) ;;
       modify (set_defaultIPv4Gateway gw)) ;;
  b <- get ;;
  when (ipv6Enabled b)
    (routes <- on_error
       (call_val (CRouteList (podNicLink b) FAMILY_V6)
          (fun l => RouteList h l (podNicLink b) FAMILY_V6))
       (attrs (podNicLink b)) ;;
     if Nat.eqb (length routes) 0
     then link <- attrs (podNicLink b) ;; fail (no_gateway link)
     else
       modify (set_podIfaceIPv6Routes routes) ;;
       gw <- wrap_error "failed to get v6 gateway: "
         (call_val (CGetDefaultGateway FAMILY_V6)
            (fun l => GetDefaultGateway h l FAMILY_V6)) ;;
       modify (set_defaultIPv6Gateway gw)).

Definition DiscoverPodNetworkInterface (podIfaceName : string) : M unit :=
  link <- call_val (CLinkByName podIfaceName) (fun l => LinkByName h l podIfaceName) ;;
  modify (set_podNicLink (Some link)) ;;
  addrs <- call_val (CReadIPv4AndIPv6AddrFromLink podIfaceName)
             (fun l => ReadIPv4AndIPv6AddrFromLink h l podIfaceName) ;;
  match fst addrs with
  | Some ipv4 => modify (set_ipv4 ipv4)
  | None => ret tt
  end ;;
  match snd addrs with
  | Some ipv6 => modify (set_ipv6 ipv6)
  | None => ret tt
  end ;;
  b <- get ;;
  when (ipv6Enabled b) (call_err CEnableIPv6Flags (EnableIPv6Flags h)) ;;
  learnInterfaceRoutes ;;
  modify (set_tapDeviceName (GenerateTapDeviceName x podIfaceName)) ;;
  modify (set_bridgeDeviceName (GenerateInPodBridgeInterfaceName x podIfaceName)) ;;
  b <- get ;;
  match RetrieveMacAddressFromVMISpecIface x (vmiSpecIface b) with
  | inl err => fail err
  | inr (Some macAddr) => modify (set_vmMac (Some macAddr))
  | inr None =>
      link <- attrs (podNicLink b) ;;
      modify (set_vmMac (Some (Link_HardwareAddr link)))
  end.

Definition configurePodNic : M unit :=
  b <- get ;;
  on_error (call_err (CLinkSetDown (podNicLink b)) (fun l => LinkSetDown h l (podNicLink b)))
    (attrs (podNicLink b)) ;;
  when (ipv4Enabled b || ipv6Enabled b)
    (when (ipv4Enabled b)
       (_ <- call (CAddrDel (podNicLink b) (podIPv4Addr b))
               (fun l => AddrDel h l (podNicLink b) (podIPv4Addr b)) ;;
        ret tt) ;;
     when (ipv6Enabled b)
       (_ <- call (CAddrDel (podNicLink b) (podIPv6Addr b))
               (fun l => AddrDel h l (podNicLink b) (podIPv6Addr b)) ;;
        ret tt)) ;;
  link <- attrs (podNicLink b) ;;
  _ <- call_val (CSetRandomMac (Link_Name link)) (fun l => SetRandomMac h l (Link_Name link)) ;;
  on_error (call_err (CLinkSetUp (podNicLink b)) (fun l => LinkSetUp h l (podNicLink b)))
    (attrs (podNicLink b)).

Definition createTapDevice : M unit :=
  b <- get ;;
  let tapOwner :=
    if IsNonRootVMI x (vmi b) then Itoa (NonRootUID x) else LibvirtUserAndGroupId x in
  link <- attrs (podNicLink b) ;;
  call_err
    (CCreateTapDevice (tapDeviceName b) (calculateNetworkQueues (vmi b)) (launcherPID b)
       (Link_MTU link) tapOwner)
    (fun l => CreateTapDevice h l (tapDeviceName b) (calculateNetworkQueues (vmi b))
                (launcherPID b) (Link_MTU link) tapOwner) ;;
  r <- call (CLinkByName (tapDeviceName b)) (fun l => LinkByName h l (tapDeviceName b)) ;;
  match r with
  | inl err => modify (set_tapNicLink None) ;; fail err
  | inr tap => modify (set_tapNicLink (Some tap))
  end ;;
  b <- get ;;
  call_err (CLinkSetUp (tapNicLink b)) (fun l => LinkSetUp h l (tapNicLink b)).

Definition createBridge : M unit :=
  b <- get ;;
  let bridge := Bridge (bridgeDeviceName b) in
  call_err (CLinkAdd bridge) (fun l => LinkAdd h l bridge) ;;
  on_error
    (call_err (CLinkSetMaster (tapNicLink b) bridge)
       (fun l => LinkSetMaster h l (tapNicLink b) bridge))
    (attrs (tapNicLink b)) ;;
  call_err (CLinkSetUp (Some bridge)) (fun l => LinkSetUp h l (Some bridge)) ;;
  when (ipv4Enabled b)
    (addr <- call (CParseAddr localIPv4Addr_String)
               (fun l => ParseAddr h l localIPv4Addr_String) ;;
     call_err (CAddrAdd bridge addr) (fun l => AddrAdd h l bridge addr)) ;;
  when (ipv6Enabled b)
    (addr <- call (CParseAddr localIPv6Addr_String)
               (fun l => ParseAddr h l localIPv6Addr_String) ;;
     call_err (CAddrAdd bridge addr) (fun l => AddrAdd h l bridge addr)) ;;
  r <- call (CLinkByName (bridgeDeviceName b)) (fun l => LinkByName h l (bridgeDeviceName b)) ;;
  match r with
  | inl err => modify (set_bridgeLink None) ;; fail err
  | inr br => modify (set_bridgeLink (Some br))
  end.

Definition configureNeighbourReply : M unit :=
  b <- get ;;
  when (ipv4Enabled b)
    (link <- attrs (podNicLink b) ;;
     call_err (CEnableIpv4ArpProxyOnIface (Link_Name link))
       (fun l => EnableIpv4ArpProxyOnIface h l (Link_Name link)) ;;
     let neigh :=
       mkNeigh (Link_Index link) FAMILY_V4 NUD_NONE NTF_PROXY (Addr_IP (podIPv4Addr b)) [] in
     call_err (CNeighAdd neigh) (fun l => NeighAdd h l neigh)) ;;
  when (ipv6Enabled b)
    (call_err CEnableIpv6NdpProxyForAll (EnableIpv6NdpProxyForAll h) ;;
     link <- attrs (podNicLink b) ;;
     call_err (CEnableIpv6NdpProxyOnIface (Link_Name link))
       (fun l => EnableIpv6NdpProxyOnIface h l (Link_Name link)) ;;
     let neigh :=
       mkNeigh (Link_Index link) FAMILY_V6 NUD_NONE NTF_PROXY (Addr_IP (podIPv6Addr b)) [] in
     call_err (CNeighAdd neigh) (fun l => NeighAdd h l neigh)).

Definition protoToken (port : V1.Port) : string :=
  if String.eqb (V1.Port_Protocol port) "UDP" then "udp" else "tcp".

Definition nftablesRule (ifaceName : string) (port : V1.Port) (localAddr : IPNet)
    : list string :=
  [ "iifname"; ifaceName; protoToken port; "dport"; Itoa (V1.Port_Port port);
    "dnat"; IP_String x (IPNet_IP localAddr) ].

Definition iptablesRule (port : V1.Port) (localAddr : IPNet) : list string :=
  [ "-p"; protoToken port; "--dport"; Itoa (V1.Port_Port port);
    "--jump"; "DNAT"; "--to-destination"; IP_String x (IPNet_IP localAddr) ].

Definition gatewayRoute (link : Link) (defaultDst : IPNet) (defaultGateway : Net.IP) : Route :=
  mkRoute (Link_Index link) SCOPE_UNIVERSE FLAG_ONLINK (Some defaultDst) defaultGateway.

Definition gatewayNeigh (link : Link) (proto : Protocol) (defaultGateway : Net.IP)
    (gatewayMacAddr : HardwareAddr) : Neigh :=
  let familyID :=
    match proto with
    | ProtocolIPv6 => FAMILY_V6
    | ProtocolIPv4 => FAMILY_V4
    end in
  mkNeigh (Link_Index link) familyID NUD_PERMANENT NTF_NONE defaultGateway gatewayMacAddr.

Definition podRoute (bridge : Link) (podIP : IPNet) : Route :=
  mkRoute (Link_Index bridge) SCOPE_HOST 0 (Some podIP) [].

Definition createNATRulesForReservedPorts (proto : Protocol) (ports : list V1.Port)
    (localAddr podIP defaultDst : IPNet) (defaultGateway : Net.IP)
    (gatewayMacAddr : HardwareAddr) : M unit :=
  b <- get ;;
  call_err (CConfigureIpForwarding proto) (fun l => ConfigureIpForwarding h l proto) ;;
  loaded <- call (CNftablesLoad proto) (fun l => NftablesLoad h l proto) ;;
  match loaded with
  | None =>
      forEach ports (fun port =>
        link <- attrs (podNicLink b) ;;
        let rule := nftablesRule (Link_Name link) port localAddr in
        call_err (CNftablesAppendRule proto "nat" "prerouting" rule)
          (fun l => NftablesAppendRule h l proto "nat" "prerouting" rule))
  | Some _ =>
      has <- call (CHasNatIptables proto) (fun l => HasNatIptables h l proto) ;;
      when has
        (forEach ports (fun port =>
           let rule := iptablesRule port localAddr in
           call_err (CIptablesAppendRule proto "nat" "PREROUTING" rule)
             (fun l => IptablesAppendRule h l proto "nat" "PREROUTING" rule)))
  end ;;
  link <- attrs (podNicLink b) ;;
  let route := gatewayRoute link defaultDst defaultGateway in
  call_err (CRouteAdd route) (fun l => RouteAdd h l route) ;;
  link <- attrs (podNicLink b) ;;
  let neigh := gatewayNeigh link proto defaultGateway gatewayMacAddr in
  call_err (CNeighAdd neigh) (fun l => NeighAdd h l neigh) ;;
  bridge <- attrs (bridgeLink b) ;;
  let route := podRoute bridge podIP in
  on_error (call_err (CRouteAdd route) (fun l => RouteAdd h l route))
    (attrs (bridgeLink b)).

Definition PreparePodNetworkInterface : M unit :=
  on_error configurePodNic (b <- get ;; attrs (podNicLink b)) ;;
  createTapDevice ;;
  createBridge ;;
  b <- get ;;
  let reservedPorts := ReservedPorts.reservedPortsInPod (vmi b) in
  when (ipv4Enabled b)
    (let podIPNet := mkIPNet (Addr_IP (podIPv4Addr b)) (CIDRMask_full Net.IPv4len) in
     createNATRulesForReservedPorts ProtocolIPv4 reservedPorts localIPv4Addr podIPNet
       (DefaultIPv4Dst x) (defaultIPv4Gateway b) gatewayMacAddress) ;;
  b <- get ;;
  when (ipv6Enabled b)
    (let podIPNet := mkIPNet (Addr_IP (podIPv6Addr b)) (CIDRMask_full Net.IPv6len) in
     createNATRulesForReservedPorts ProtocolIPv6 reservedPorts localIPv6Addr podIPNet
       (DefaultIPv6Dst x) (defaultIPv6Gateway b) gatewayMacAddress) ;;
  configureNeighbourReply.

(** [GenerateNonRecoverableDHCPConfig] reads the fields only. *)
Definition GenerateNonRecoverableDHCPConfig (b : RouterPodNetworkConfigurator)
    : GoResult DHCPConfig :=
  if negb (ipv4Enabled b) && negb (ipv6Enabled b)
  then Returns (mkDHCPConfig [] true Addr_zero None [] Addr_zero None [])
  else
    match vmMac b with
    | None => Panics nil_dereference
    | Some mac =>
        let dhcpConfig := mkDHCPConfig mac false Addr_zero None [] Addr_zero None [] in
        let afterIPv4 :=
          if ipv4Enabled b then
            match netlink_ParseAddr x (IP_String x (Addr_IP (podIPv4Addr b)) ++ "/32") with
            | None => Panics nil_dereference
            | Some ipv4Addr =>
                let c1 :=
                  mkDHCPConfig (DHCP_MAC dhcpConfig) (DHCP_IPAMDisabled dhcpConfig) ipv4Addr
                    (DHCP_Routes dhcpConfig) (DHCP_Gateway dhcpConfig) (DHCP_IPv6 dhcpConfig)
                    (DHCP_IPv6Routes dhcpConfig) (DHCP_IPv6Gateway dhcpConfig) in
                let routes :=
                  if Nat.ltb 1 (length (podIfaceIPv4Routes b))
                  then Some (FilterPodNetworkRoutes x (podIfaceIPv4Routes b) c1)
                  else DHCP_Routes c1 in
                Returns
                  (mkDHCPConfig (DHCP_MAC c1) (DHCP_IPAMDisabled c1) (DHCP_IP c1) routes
                     (IPNet_IP localIPv4Addr) (DHCP_IPv6 c1) (DHCP_IPv6Routes c1)
                     (DHCP_IPv6Gateway c1))
            end
          else Returns dhcpConfig in
        match afterIPv4 with
        | Panics msg => Panics msg
        | Returns c2 =>
            if ipv6Enabled b then
              match netlink_ParseAddr x (IP_String x (Addr_IP (podIPv6Addr b)) ++ "/128") with
              | None => Panics nil_dereference
              | Some ipv6Addr =>
                  let c3 :=
                    mkDHCPConfig (DHCP_MAC c2) (DHCP_IPAMDisabled c2) (DHCP_IP c2)
                      (DHCP_Routes c2) (DHCP_Gateway c2) ipv6Addr (DHCP_IPv6Routes c2)
                      (DHCP_IPv6Gateway c2) in
                  let routes :=
                    if Nat.ltb 1 (length (podIfaceIPv6Routes b))
                    then Some (FilterPodNetworkRoutes x (podIfaceIPv6Routes b) c3)
                    else DHCP_IPv6Routes c3 in
                  Returns
                    (mkDHCPConfig (DHCP_MAC c3) (DHCP_IPAMDisabled c3) (DHCP_IP c3)
                       (DHCP_Routes c3) (DHCP_Gateway c3) (DHCP_IPv6 c3) routes
                       (defaultIPv6Gateway b))
              end
            else Returns c2
        end
    end.

End Methods.

(** *** The preparation as the specification words it *)

(** The calls made between two states. *)
Definition newCalls (s s' : State) : Log := skipn (length (log s)) (log s').

(** Running steps in order: a step is run only if all the steps before it
    returned without error; the result is that of the last step run.  The
    calls each step made are returned step by step, none for a step that
    was not run. *)
Fixpoint inOrder (steps : list (M unit)) (s : State) : State * Result unit * list Log :=
  match steps with
  | [] => (s, Ok tt, [])
  | step :: rest =>
      let '(s1, r) := step s in
      match r with
      | Ok _ =>
          let '(s2, r2, segments) := inOrder rest s1 in
          (s2, r2, newCalls s s1 :: segments)
      | _ => (s1, r, newCalls s s1 :: List.map (fun _ => []) rest)
      end
  end.

(** The fourth and fifth step: the NAT, route and neighbour rules of a
    family, if the family is enabled. *)
Definition natStepIPv4 (h : NetworkHandler) (x : Externals) (ports : list V1.Port)
    : M unit :=
  b <- get ;;
  when (ipv4Enabled b)
    (createNATRulesForReservedPorts h x ProtocolIPv4 ports localIPv4Addr
       (mkIPNet (Addr_IP (podIPv4Addr b)) (CIDRMask_full Net.IPv4len))
       (DefaultIPv4Dst x) (defaultIPv4Gateway b) gatewayMacAddress).

Definition natStepIPv6 (h : NetworkHandler) (x : Externals) (ports : list V1.Port)
    : M unit :=
  b <- get ;;
  when (ipv6Enabled b)
    (createNATRulesForReservedPorts h x ProtocolIPv6 ports localIPv6Addr
       (mkIPNet (Addr_IP (podIPv6Addr b)) (CIDRMask_full Net.IPv6len))
       (DefaultIPv6Dst x) (defaultIPv6Gateway b) gatewayMacAddress).

(** The steps of the preparation, in the order of the specification, for
    the reserved ports [ports]. *)
Definition prepareSteps (h : NetworkHandler) (x : Externals) (ports : list V1.Port)
    : list (M unit) :=
  [ on_error (configurePodNic h) (b <- get ;; attrs (podNicLink b));
    createTapDevice h x;
    createBridge h;
    natStepIPv4 h x ports;
    natStepIPv6 h x ports;
    configureNeighbourReply h ].








Definition isDnatRule (c : Call) : bool :=
  match c with
  | CNftablesAppendRule _ _ _ _ | CIptablesAppendRule _ _ _ _ => true
  | _ => false
  end.






(** A method leaves the part [f] of the configurator as it is. *)
Definition preserves {A B : Type} (f : RouterPodNetworkConfigurator -> B) (m : M A) : Prop :=
  forall s, f (cfg (fst (m s))) = f (cfg s).


Definition isPanic {A : Type} (r : Result A) : bool :=
  match r with
  | Panic _ => true
  | _ => false
  end.

Definition isSome {A : Type} (o : option A) : bool :=
  match o with
  | Some _ => true
  | None => false
  end.

(** A method leaves the configurator [b0] as it is and does not panic. *)
Definition frames {A : Type} (b0 : RouterPodNetworkConfigurator) (m : M A) : Prop :=
  forall s, cfg s = b0 ->
    cfg (fst (m s)) = b0 /\ isPanic (snd (m s)) = false.

(** *** The interface spec of the domain *)

(** [api.Interface], the field the configurator fills in: [MAC.MAC]. *)
Record DomainIfaceSpec : Type := mkDomainIfaceSpec {
  Iface_MAC : string
}.

(** [GenerateNonRecoverableDomainIfaceSpec]: [b.vmMac.String()] reads
    through the pointer [vmMac]. *)
Definition GenerateNonRecoverableDomainIfaceSpec (b : RouterPodNetworkConfigurator)
    : GoResult DomainIfaceSpec :=
  match vmMac b with
  | None => Panics nil_dereference
  | Some mac => Returns (mkDomainIfaceSpec (HardwareAddr_String mac))
  end.

(** *** What the methods are expected to call *)

(** The calls of the discovery. *)
Definition discoverCall (c : Call) : bool :=
  match c with
  | CLinkByName _ | CReadIPv4AndIPv6AddrFromLink _ | CEnableIPv6Flags
  | CRouteList _ _ | CGetDefaultGateway _ => true
  | _ => false
  end.

(** The MAC the discovery settles on: the one of the VMI's interface spec,
    and without one the MAC of the pod's link. *)
Definition discoveredMac (x : Externals) (iface : V1.Interface) (link : Link)
    : HardwareAddr :=
  match RetrieveMacAddressFromVMISpecIface x iface with
  | inr (Some macAddr) => macAddr
  | _ => Link_HardwareAddr link
  end.

(** What a discovery that returns nil has established in the configurator
    [b'], started from [b]: the pod's link, the MAC of the VM, the names of
    the tap device and of the bridge, the families found and their
    addresses, and for each enabled family a route list that is not empty
    and a default gateway, both as the handler returned them. *)
Definition discovered (h : NetworkHandler) (x : Externals)
    (b : RouterPodNetworkConfigurator) (podIfaceName : string) (link : Link)
    (ipv4 ipv6 : option Addr) (b' : RouterPodNetworkConfigurator) : Prop :=
  podNicLink b' = Some link /\
  vmMac b' = Some (discoveredMac x (vmiSpecIface b) link) /\
  tapDeviceName b' = GenerateTapDeviceName x podIfaceName /\
  bridgeDeviceName b' = GenerateInPodBridgeInterfaceName x podIfaceName /\
  ipv4Enabled b' = ipv4Enabled b || isSome ipv4 /\
  ipv6Enabled b' = ipv6Enabled b || isSome ipv6 /\
  podIPv4Addr b' = match ipv4 with Some a => a | None => podIPv4Addr b end /\
  podIPv6Addr b' = match ipv6 with Some a => a | None => podIPv6Addr b end /\
  (ipv4Enabled b' = true ->
   podIfaceIPv4Routes b' <> [] /\
   (exists l', RouteList h l' (Some link) FAMILY_V4 = inr (podIfaceIPv4Routes b')) /\
   (exists l', GetDefaultGateway h l' FAMILY_V4 = inr (defaultIPv4Gateway b'))) /\
  (ipv6Enabled b' = true ->
   podIfaceIPv6Routes b' <> [] /\
   (exists l', RouteList h l' (Some link) FAMILY_V6 = inr (podIfaceIPv6Routes b')) /\
   (exists l', GetDefaultGateway h l' FAMILY_V6 = inr (defaultIPv6Gateway b'))).

(** The errors the discovery can return: an error of one of the handler's
    calls as it is, the missing gateway of a link without routes, the
    wrapped error of the gateway lookup, or the error of the MAC lookup in
    the interface spec. *)
Definition discoveryError (h : NetworkHandler) (x : Externals)
    (b : RouterPodNetworkConfigurator) (podIfaceName : string) (err : string) : Prop :=
  (exists l, LinkByName h l podIfaceName = inl err) \/
  (exists l, ReadIPv4AndIPv6AddrFromLink h l podIfaceName = inl err) \/
  (exists l, EnableIPv6Flags h l = Some err) \/
  (exists l link family, RouteList h l link family = inl err) \/
  (exists link, err = ("no gateway address found in routes for " ++ Link_Name link)%string) \/
  (exists l e, GetDefaultGateway h l FAMILY_V4 = inl e /\
               err = ("failed to get v4 gateway: " ++ e)%string) \/
  (exists l e, GetDefaultGateway h l FAMILY_V6 = inl e /\
               err = ("failed to get v6 gateway: " ++ e)%string) \/
  RetrieveMacAddressFromVMISpecIface x (vmiSpecIface b) = inl err.

(** The DNAT rules of the reserved ports, one per port and in their order,
    for nftables and for iptables. *)
Definition nftablesCalls (x : Externals) (proto : Protocol) (ifaceName : string)
    (ports : list V1.Port) (localAddr : IPNet) : Log :=
  List.map
    (fun port =>
       CNftablesAppendRule proto "nat" "prerouting"
         [ "iifname"; ifaceName;
           (if String.eqb (V1.Port_Protocol port) "UDP" then "udp" else "tcp");
           "dport"; Itoa (V1.Port_Port port); "dnat"; IP_String x (IPNet_IP localAddr) ])
    ports.

Definition iptablesCalls (x : Externals) (proto : Protocol) (ports : list V1.Port)
    (localAddr : IPNet) : Log :=
  List.map
    (fun port =>
       CIptablesAppendRule proto "nat" "PREROUTING"
         [ "-p"; (if String.eqb (V1.Port_Protocol port) "UDP" then "udp" else "tcp");
           "--dport"; Itoa (V1.Port_Port port); "--jump"; "DNAT";
           "--to-destination"; IP_String x (IPNet_IP localAddr) ])
    ports.

(** The routes and the neighbour entry that follow the DNAT rules: the
    default route through the gateway on the pod's link, the permanent
    neighbour entry of the gateway, and the route of the pod's address to
    the bridge. *)
Definition rewiringCalls (proto : Protocol) (link bridge : Link) (podIP defaultDst : IPNet)
    (defaultGateway : Net.IP) (gatewayMacAddr : HardwareAddr) : Log :=
  [ CRouteAdd (mkRoute (Link_Index link) SCOPE_UNIVERSE FLAG_ONLINK (Some defaultDst)
                 defaultGateway);
    CNeighAdd (mkNeigh (Link_Index link)
                 (match proto with ProtocolIPv6 => FAMILY_V6 | ProtocolIPv4 => FAMILY_V4 end)
                 NUD_PERMANENT NTF_NONE defaultGateway gatewayMacAddr);
    CRouteAdd (mkRoute (Link_Index bridge) SCOPE_HOST 0 (Some podIP) []) ].

End Router.

(** ** Concrete inputs used by the examples below *)

Module Inputs.

Definition q (s : string) : string :=
  String Chars.dquote (s ++ String Chars.dquote "").


Definition vmi_with_ports (data : string) : V1.VirtualMachineInstance :=
  V1.mkVMI {[ ReservedPorts.RESERVED_PORTS_ANNOTATION := data ]} None.

Definition vmi_plain : V1.VirtualMachineInstance := V1.mkVMI ∅ None.

(** The annotation of the specification's example: one port, ssh 22/TCP. *)
Definition ssh_annotation : string :=
  "[{" ++ q "name" ++ ":" ++ q "ssh" ++ "," ++ q "port" ++ ":22,"
       ++ q "protocol" ++ ":" ++ q "TCP" ++ "}]".

(** A port list whose first port is a string instead of a number. *)
Definition mistyped_annotation : string :=
  "[{" ++ q "name" ++ ":" ++ q "web" ++ "," ++ q "port" ++ ":" ++ q "http" ++ "},{"
       ++ q "name" ++ ":" ++ q "ssh" ++ "," ++ q "port" ++ ":22}]".

(** A guest-agent reply that reports an error instead of a return value. *)
Definition agent_error_reply : string :=
  "{" ++ q "error" ++ ": {" ++ q "class" ++ ": " ++ q "CommandNotFound" ++ ", "
      ++ q "desc" ++ ": " ++ q "The command has not been found" ++ "}}".

Definition agent_hostname_reply : string :=
  "{" ++ q "return" ++ ": {" ++ q "host-name" ++ ": " ++ q "vm-1" ++ "}}".

(** The specification's merge example, with a loopback entry added. *)
Definition dom_eth0 : list AgentPoller.DomainInterface :=
  [AgentPoller.mkDomainInterface "aa:bb" "eth0"].

Definition agent_two_nics : list AgentPoller.Interface :=
  [ AgentPoller.mkInterface "aa:bb" [AgentPoller.mkIP "10.0.0.5" "ipv4" 24] "ens3";
    AgentPoller.mkInterface "cc:dd"
      [AgentPoller.mkIP "fe80::1" "ipv6" 64; AgentPoller.mkIP "10.0.0.6" "ipv4" 24] "ens4";
    AgentPoller.mkInterface "00:00:00:00:00:00"
      [AgentPoller.mkIP "127.0.0.1" "ipv4" 8] "lo" ].



(** A pod with the interface eth0 and a handler whose calls all succeed:
    the pod's addresses and routes, the answer of [NftablesLoad] and the
    presence of the iptables NAT table are given. *)
Definition eth0 : Netlink.Link := Netlink.mkLink "eth0" 3 1500 [2; 66; 10; 0; 0; 5]%Z.

Definition link_named (name : string) : Netlink.Link :=
  if String.eqb name "eth0" then eth0
  else if String.eqb name "tap0" then Netlink.mkLink "tap0" 4 1500 [2; 0; 0; 0; 0; 4]%Z
  else Netlink.mkLink name 5 1500 [2; 0; 0; 0; 0; 5]%Z.

Definition pod_handler (v4 v6 : option Netlink.Addr) (routes4 routes6 : list Netlink.Route)
    (nft : option string) (iptablesNat : bool) : Driver.NetworkHandler :=
  Driver.mkHandler
    (fun _ name => inr (link_named name))
    (fun _ _ => inr (v4, v6))
    (fun _ => None)
    (fun _ _ family =>
       match family with
       | Netlink.FAMILY_V4 => inr routes4
       | Netlink.FAMILY_V6 => inr routes6
       end)
    (fun _ family =>
       match family with
       | Netlink.FAMILY_V4 => inr [10; 0; 0; 1]%Z
       | Netlink.FAMILY_V6 => inr (Net.ParseIP "fe80::1")
       end)
    (fun _ _ => None)
    (fun _ _ _ => None)
    (fun _ _ => inr [2; 1; 2; 3; 4; 5]%Z)
    (fun _ _ => None)
    (fun _ _ _ _ _ _ => None)
    (fun _ _ => None)
    (fun _ _ _ => None)
    (fun _ s =>
       if String.eqb s Router.localIPv4Addr_String
       then Some (Netlink.mkAddr (Netlink.IPNet_IP Router.localIPv4Addr)
                    (Netlink.IPNet_Mask Router.localIPv4Addr))
       else Some (Netlink.mkAddr (Netlink.IPNet_IP Router.localIPv6Addr)
                    (Netlink.IPNet_Mask Router.localIPv6Addr)))
    (fun _ _ _ => None)
    (fun _ _ => None)
    (fun _ _ => nft)
    (fun _ _ _ _ _ => None)
    (fun _ _ => iptablesNat)
    (fun _ _ _ _ _ => None)
    (fun _ _ => None)
    (fun _ _ => None)
    (fun _ _ => None)
    (fun _ => None)
    (fun _ _ => None).

Definition pod_ipv4 : Netlink.Addr :=
  Netlink.mkAddr [10; 0; 0; 5]%Z [255; 255; 255; 0]%Z.

Definition pod_ipv6 : Netlink.Addr :=
  Netlink.mkAddr (Net.ParseIP "fd00::5") (Netlink.CIDRMask_full 16).

Definition route_via (gw : Net.IP) : Netlink.Route :=
  Netlink.mkRoute 3 Netlink.SCOPE_UNIVERSE 0 None gw.

Definition hex_digit (n : Z) : string :=
  String (ascii_of_N (Z.to_N (if (n <? 10)%Z then 48 + n else 87 + n))) "".

Definition hex_byte (n : Z) : string :=
  (hex_digit (Z.shiftr n 4) ++ hex_digit (Z.land n 15))%string.

Fixpoint hex_groups (ip : list Z) : list string :=
  match ip with
  | hi :: lo :: rest => (hex_byte hi ++ hex_byte lo)%string :: hex_groups rest
  | _ => []
  end.

(** A text for an address: dotted decimal for 4 bytes, eight groups of
    four hexadecimal digits for 16 bytes. *)
Definition ip_text (ip : Net.IP) : string :=
  match ip with
  | [a; b; c; d] =>
      (Router.Itoa a ++ "." ++ Router.Itoa b ++ "." ++ Router.Itoa c ++ "."
         ++ Router.Itoa d)%string
  | _ => String.concat ":" (hex_groups ip)
  end.

Fixpoint before_slash (s : string) : string :=
  match s with
  | EmptyString => EmptyString
  | String c s' => if Ascii.eqb c "/" then EmptyString else String c (before_slash s')
  end.

(** Stand-ins for the functions defined outside the files at hand. *)
Definition externals : Router.Externals :=
  Router.mkExternals
    (fun _ => "tap0")
    (fun _ => "k6t-eth0")
    (fun _ => inr None)
    (fun routes _ =>
       List.filter
         (fun r => match Netlink.Route_Dst r with Some _ => true | None => false end)
         routes)
    (fun _ => 1%Z)
    (fun _ => false)
    "0"
    107%Z
    (Netlink.mkIPNet [0; 0; 0; 0]%Z [0; 0; 0; 0]%Z)
    (Netlink.mkIPNet (List.repeat 0%Z 16) (List.repeat 0%Z 16))
    ip_text
    (fun s =>
       let ip := Net.ParseIP (before_slash s) in
       if Net.is_nil ip then None
       else Some (Netlink.mkAddr ip (Netlink.CIDRMask_full (length ip)))).

Definition fresh_state : Router.State :=
  Router.mkState
    (Router.NewRouterPodNetworkConfigurator vmi_plain (V1.mkInterface "default" "") 4242)
    [].

(** An IPv4-only pod, an IPv6-only pod and a dual-stack pod; the same
    without any route; an IPv4-only pod where nftables cannot be loaded and
    iptables has no NAT table. *)
Definition ipv4_pod : Driver.NetworkHandler :=
  pod_handler (Some pod_ipv4) None [route_via [10; 0; 0; 1]%Z] [] None false.

Definition ipv6_pod : Driver.NetworkHandler :=
  pod_handler None (Some pod_ipv6) [] [route_via (Net.ParseIP "fe80::1")] None false.

Definition dual_stack_pod : Driver.NetworkHandler :=
  pod_handler (Some pod_ipv4) (Some pod_ipv6) [route_via [10; 0; 0; 1]%Z]
    [route_via (Net.ParseIP "fe80::1")] None false.

Definition ipv4_pod_without_routes : Driver.NetworkHandler :=
  pod_handler (Some pod_ipv4) None [] [] None false.

Definition ipv6_pod_without_routes : Driver.NetworkHandler :=
  pod_handler None (Some pod_ipv6) [] [] None false.

Definition ipv4_pod_without_nat : Driver.NetworkHandler :=
  pod_handler (Some pod_ipv4) None [route_via [10; 0; 0; 1]%Z] []
    (Some "nft: no such file or directory") false.

(** The state after a successful discovery of an IPv4-only pod. *)
Definition discovered_ipv4 : Router.State :=
  fst (Router.DiscoverPodNetworkInterface ipv4_pod externals "eth0" fresh_state).

Definition discovered_dual_stack : Router.State :=
  fst (Router.DiscoverPodNetworkInterface dual_stack_pod externals "eth0" fresh_state).

(** The same for an IPv6-only pod. *)
Definition discovered_ipv6 : Router.State :=
  fst (Router.DiscoverPodNetworkInterface ipv6_pod externals "eth0" fresh_state).

(** The state of an IPv4-only pod once the tap device and the bridge
    exist, with an empty record of calls. *)
Definition bridged_ipv4 : Router.State :=
  Router.mkState
    (Router.set_bridgeLink (Some (link_named "k6t-eth0"))
       (Router.set_tapNicLink (Some (link_named "tap0")) (Router.cfg discovered_ipv4)))
    [].

(** A handler that cannot create the tap device. *)
Definition failing_tap (h : Driver.NetworkHandler) : Driver.NetworkHandler :=
  Driver.mkHandler
    (Driver.LinkByName h) (Driver.ReadIPv4AndIPv6AddrFromLink h) (Driver.EnableIPv6Flags h)
    (Driver.RouteList h) (Driver.GetDefaultGateway h) (Driver.LinkSetDown h)
    (Driver.AddrDel h) (Driver.SetRandomMac h) (Driver.LinkSetUp h)
    (fun _ _ _ _ _ _ => Some "tap: device or resource busy")
    (Driver.LinkAdd h) (Driver.LinkSetMaster h) (Driver.ParseAddr h) (Driver.AddrAdd h)
    (Driver.ConfigureIpForwarding h) (Driver.NftablesLoad h) (Driver.NftablesAppendRule h)
    (Driver.HasNatIptables h) (Driver.IptablesAppendRule h) (Driver.RouteAdd h)
    (Driver.NeighAdd h) (Driver.EnableIpv4ArpProxyOnIface h)
    (Driver.EnableIpv6NdpProxyForAll h) (Driver.EnableIpv6NdpProxyOnIface h).

(** A connection on which two solicitations and an advertisement arrive
    before reading fails; every write succeeds. *)
Definition ndp_connection : Ndp.Connection :=
  Ndp.mkConnection
    [ inr (Ndp.MsgRouterSolicitation []);
      inr (Ndp.MsgNeighborSolicitation (Net.ParseIP "fe80::2"));
      inr (Ndp.MsgRouterSolicitation []);
      inl "failed to read NDP. n bytes: 0, err: EOF";
      inr (Ndp.MsgRouterSolicitation []) ]
    (fun _ => None).

Definition advertiser : Ndp.RouterAdvertiser :=
  Ndp.mkRouterAdvertiser
    (Ndp.prepareRAOptions (Net.ParseIP "fd00::") 64 [238; 238; 238; 238; 238; 238]%Z).

End Inputs.

(* ===================================================================== *)
(** * Part II.  Properties                                                 *)
(* ===================================================================== *)

Section DnsFacts.
Import Dns.

Example DomainNameWithSubdomain_longest_first :
  DomainNameWithSubdomain
    ["default.svc.cluster.local"; "svc.cluster.local"; "cluster.local"] "subdomain"
  = "subdomain.default.svc.cluster.local".
Proof. reflexivity. Qed.

Example DomainNameWithSubdomain_longest_last :
  DomainNameWithSubdomain
    ["svc.cluster.local"; "cluster.local"; "default.svc.cluster.local"] "subdomain"
  = "subdomain.default.svc.cluster.local".
Proof. reflexivity. Qed.

Example DomainNameWithSubdomain_already_there :
  DomainNameWithSubdomain
    ["svc.cluster.local"; "cluster.local"; "subdomain.default.svc.cluster.local"]
    "subdomain"
  = "".
Proof. reflexivity. Qed.

Example DomainNameWithSubdomain_long_non_service :
  DomainNameWithSubdomain
    ["default.svc.cluster.local"; "svc.cluster.local"; "cluster.local";
     "this.is.a.very.very.very.long.entry"] "subdomain"
  = "subdomain.default.svc.cluster.local".
Proof. reflexivity. Qed.

(** What the selection loop returns: the initial candidate when nothing is
    strictly longer, and otherwise the first of the longest entries. *)
Lemma GetDomainName_loop_spec (ds : list string) :
  forall sel,
    (GetDomainName_loop sel ds = sel /\
     forall d, In d ds -> String.length d <= String.length sel) \/
    (exists pre post,
        ds = pre ++ GetDomainName_loop sel ds :: post /\
        String.length sel < String.length (GetDomainName_loop sel ds) /\
        (forall d, In d pre ->
                   String.length d < String.length (GetDomainName_loop sel ds)) /\
        (forall d, In d post ->
                   String.length d <= String.length (GetDomainName_loop sel ds))).
Proof.
  induction ds as [|d ds IH]; intros sel; simpl.
  - left. split; [reflexivity | intros d []].
  - destruct (Nat.ltb_spec (String.length sel) (String.length d)) as [Hlt | Hge].
    + destruct (IH d) as [[Heq Hall] | (pre & post & Hds & Hlen & Hpre & Hpost)].
      * right. exists [], ds. rewrite Heq. simpl.
        repeat split; [assumption | intros ? [] | assumption].
      * right. exists (d :: pre), post. simpl.
        split; [f_equal; exact Hds |].
        split; [lia |].
        split; [| assumption].
        intros d' [<- | Hin]; [assumption | auto].
    + destruct (IH sel) as [[Heq Hall] | (pre & post & Hds & Hlen & Hpre & Hpost)].
      * left. split; [assumption |].
        intros d' [<- | Hin]; [assumption | auto].
      * right. exists (d :: pre), post. simpl.
        split; [f_equal; exact Hds |].
        split; [assumption |].
        split; [| assumption].
        intros d' [<- | Hin]; [lia | auto].
Qed.

(** A decomposition of a filtered list lifts to the list itself. *)
Lemma filter_decompose {A : Type} (f : A -> bool) (l : list A) :
  forall pre x post,
    List.filter f l = pre ++ x :: post ->
    exists pre' post',
      l = pre' ++ x :: post' /\ f x = true /\
      List.filter f pre' = pre /\ List.filter f post' = post.
Proof.
  induction l as [|a l IH]; intros pre x post H; simpl in H.
  - destruct pre; discriminate.
  - destruct (f a) eqn:Hfa.
    + destruct pre as [|p pre]; simpl in H.
      * injection H as -> Hl.
        exists [], l. simpl. auto.
      * injection H as -> Hl.
        destruct (IH _ _ _ Hl) as (pre' & post' & -> & Hfx & Hpre & Hpost).
        exists (p :: pre'), post'. simpl. rewrite Hfa, Hpre. auto.
    + destruct (IH _ _ _ H) as (pre' & post' & -> & Hfx & Hpre & Hpost).
      exists (a :: pre'), post'. simpl. rewrite Hfa. auto.
Qed.

Lemma string_length_zero (s : string) : String.length s = 0 -> s = "".
Proof. destruct s; [reflexivity | discriminate]. Qed.

(** The function either finds no service domain at all or returns the
    longest service domain in the sense of the specification. *)
Lemma GetLongestServiceDomainName_spec (ds : list string) :
  (GetLongestServiceDomainName ds = "" /\ forall d, In d ds -> ~ is_service d) \/
  (GetLongestServiceDomainName ds <> "" /\
   longest_service_domain ds (GetLongestServiceDomainName ds)).
Proof.
  unfold GetLongestServiceDomainName, GetDomainName.
  destruct (GetDomainName_loop_spec (GetServiceDomainList ds) "")
    as [[Heq Hall] | (pre & post & Hds & Hlen & Hpre & Hpost)].
  - left. split; [assumption |].
    intros d Hin Hsvc.
    assert (Hf : In d (GetServiceDomainList ds))
      by (apply List.filter_In; split; assumption).
    apply Hall in Hf. simpl in Hf.
    assert (d = "") by (apply string_length_zero; lia). subst d.
    discriminate Hsvc.
  - right.
    set (r := GetDomainName_loop "" (GetServiceDomainList ds)) in *.
    split; [intros E; rewrite E in Hlen; simpl in Hlen; lia |].
    destruct (filter_decompose _ _ _ _ _ Hds) as (pre' & post' & E & Hr & Fpre & Fpost).
    exists pre', post'. split; [exact E |]. split; [exact Hr |]. split.
    + intros d Hin Hsvc. apply Hpre. rewrite <- Fpre.
      apply List.filter_In. split; assumption.
    + intros d Hin Hsvc. apply Hpost. rewrite <- Fpost.
      apply List.filter_In. split; assumption.
Qed.

(** Two decompositions of one list around its first maximum coincide. *)
Lemma longest_service_domain_unique (ds : list string) (d1 d2 : string) :
  longest_service_domain ds d1 -> longest_service_domain ds d2 -> d1 = d2.
Proof.
  intros (pre1 & post1 & E1 & S1 & Hpre1 & Hpost1)
         (pre2 & post2 & E2 & S2 & Hpre2 & Hpost2).
  subst ds. revert pre2 E2 Hpre2.
  induction pre1 as [|a pre1 IH]; intros pre2 E2 Hpre2.
  - destruct pre2 as [|b pre2]; simpl in E2.
    + congruence.
    + injection E2 as -> Hpost.
      assert (Hin : In d2 post1) by (rewrite Hpost; apply in_elt).
      specialize (Hpost1 _ Hin S2).
      specialize (Hpre2 b (or_introl eq_refl) S1). lia.
  - destruct pre2 as [|b pre2]; simpl in E2.
    + injection E2 as -> Hpost.
      assert (Hin : In d1 post2) by (rewrite <- Hpost; apply in_elt).
      specialize (Hpost2 _ Hin S1).
      specialize (Hpre1 d2 (or_introl eq_refl) S2). lia.
    + injection E2 as -> E2.
      apply (IH (fun d' H => Hpre1 d' (or_intror H)) pre2 E2).
      intros d' H. apply Hpre2. right. exact H.
Qed.

(** C7. [DomainNameWithSubdomain] returns the empty string when the
    subdomain is empty, when no search domain contains the service infix
    [".svc."], or when the longest service domain already begins with the
    subdomain followed by a dot; otherwise it returns the subdomain, a dot
    and the longest service domain, the longest being taken by length with
    ties going to the first occurrence.  Whenever some entry is a service
    domain, a longest service domain exists. *)
Theorem C7_DomainNameWithSubdomain_spec (searchDomains : list string) (subdomain : string) :
  (subdomain = "" -> DomainNameWithSubdomain searchDomains subdomain = "") /\
  ((forall d, In d searchDomains -> ~ is_service d) ->
   DomainNameWithSubdomain searchDomains subdomain = "") /\
  (forall d, longest_service_domain searchDomains d ->
             GoStrings.HasPrefix d (subdomain ++ ".") = true ->
             DomainNameWithSubdomain searchDomains subdomain = "") /\
  (forall d, subdomain <> "" ->
             longest_service_domain searchDomains d ->
             GoStrings.HasPrefix d (subdomain ++ ".") = false ->
             DomainNameWithSubdomain searchDomains subdomain
             = (subdomain ++ "." ++ d)%string) /\
  ((exists d, In d searchDomains /\ is_service d) ->
   exists d, longest_service_domain searchDomains d).
Proof.
  unfold DomainNameWithSubdomain.
  destruct (GetLongestServiceDomainName_spec searchDomains)
    as [[Hempty Hnone] | [Hne Hlong]].
  - rewrite Hempty. simpl.
    repeat split.
    + intros ->. reflexivity.
    + intros _. destruct (String.eqb subdomain ""); reflexivity.
    + intros d (pre & post & -> & Hsvc & _) _. exfalso.
      apply (Hnone d); [apply in_elt | exact Hsvc].
    + intros d _ (pre & post & -> & Hsvc & _) _. exfalso.
      apply (Hnone d); [apply in_elt | exact Hsvc].
    + intros (d & Hin & Hsvc). exfalso. exact (Hnone d Hin Hsvc).
  - set (r := GetLongestServiceDomainName searchDomains) in *.
    assert (Hr : String.eqb r "" = false) by (apply String.eqb_neq; exact Hne).
    rewrite Hr. simpl.
    repeat split.
    + intros ->. reflexivity.
    + intros Hnone. exfalso.
      destruct Hlong as (pre & post & E & Hsvc & _).
      apply (Hnone r); [rewrite E; apply in_elt | exact Hsvc].
    + intros d Hd Hpre.
      rewrite (longest_service_domain_unique _ _ _ Hlong Hd), Hpre.
      destruct (String.eqb subdomain ""); reflexivity.
    + intros d Hsub Hd Hpre.
      rewrite (longest_service_domain_unique _ _ _ Hlong Hd), Hpre.
      apply String.eqb_neq in Hsub. rewrite Hsub. reflexivity.
    + intros _. exists r. exact Hlong.
Qed.

Example ParseNameservers_ipv4 :
  ParseNameservers
    ("nameserver 8.8.8.8" ++ String Chars.newline
       ("nameserver 8.8.4.4" ++ String Chars.newline ""))
  = ([Net.IPv4 8 8 8 8; Net.IPv4 8 8 4 4], [], None).
Proof. vm_compute. reflexivity. Qed.

Example ParseNameservers_default :
  ParseNameservers "" = ([Net.IPv4 8 8 8 8], [], None).
Proof. vm_compute. reflexivity. Qed.

Example ParseNameservers_trailing_text_skipped :
  ParseNameservers "nameserver 10.0.0.10 # cluster dns"
  = ([Net.IPv4 8 8 8 8], [], None).
Proof. vm_compute. reflexivity. Qed.



(** A line that does not fit stops the scan with an error. *)
Lemma scan_error_iff (lines : list string) :
  snd (Bufio.scan lines) = Some Bufio.ErrTooLong <->
  ~ Forall (fun l => Bufio.fits l = true) lines.
Proof.
  induction lines as [|l lines IH]; simpl.
  - split; [discriminate | intros H; exfalso; apply H; constructor].
  - destruct (Bufio.fits l) eqn:Hl.
    + destruct (Bufio.scan lines) as [toks err]. simpl in *. rewrite IH.
      split; intros H F.
      * apply H. inversion F; assumption.
      * apply H. constructor; assumption.
    + simpl. split; [| reflexivity].
      intros _ F. inversion F; congruence.
Qed.

(** Whatever the text, an error is reported exactly when a line is too
    long for the scanner, and then no default nameserver is supplied. *)
Lemma ParseNameservers_error_iff (content : string) :
  snd (ParseNameservers content) = Some Bufio.ErrTooLong <->
  ~ all_lines_fit content.
Proof.
  unfold ParseNameservers, all_lines_fit, Bufio.ScanLines.
  rewrite <- scan_error_iff.
  destruct (Bufio.scan (Bufio.raw_lines [] content)) as [toks err].
  destruct (fold_left nameserver_step toks ([], [])) as [v4 v6].
  destruct err; simpl.
  - reflexivity.
  - destruct (_ && _); simpl; reflexivity.
Qed.







End DnsFacts.

Section ReservedPortsFacts.
Import V1 ReservedPorts.

Example reservedPortsInPod_no_annotation :
  reservedPortsInPod Inputs.vmi_plain
  = [mkPort "vnc" "TCP" 5900; mkPort "vnc-ws" "TCP" 5901].
Proof. reflexivity. Qed.

Example reservedPortsInPod_ssh :
  reservedPortsInPod (Inputs.vmi_with_ports Inputs.ssh_annotation)
  = [mkPort "ssh" "TCP" 22].
Proof. vm_compute. reflexivity. Qed.

(** A port of the wrong type is a decoding error; what was decoded is
    returned all the same. *)
Example reservedPortsInPod_mistyped :
  Json.Unmarshal dec_Ports Inputs.mistyped_annotation []
  = ([mkPort "web" "" 0; mkPort "ssh" "" 22],
     Some (Json.type_error "string" "int32")) /\
  reservedPortsInPod (Inputs.vmi_with_ports Inputs.mistyped_annotation)
  = [mkPort "web" "" 0; mkPort "ssh" "" 22].
Proof. split; vm_compute; reflexivity. Qed.

Lemma dec_elems_fst {T : Type} (zero : T) (dec : Json.decoder T) (elems : list Json.value) :
  fst (Json.dec_elems zero dec elems) = List.map (fun v => fst (dec v zero)) elems.
Proof.
  induction elems as [|v elems IH]; simpl; [reflexivity |].
  destruct (dec v zero) as [t e1].
  destruct (Json.dec_elems zero dec elems) as [ts e2].
  simpl in *. rewrite IH. reflexivity.
Qed.

(** C2 (amended). Without the annotation [reservedPortsInPod] returns the
    built-in list, exactly VNC 5900/TCP and 5901/TCP.  With the annotation
    it returns what [json.Unmarshal] leaves in an initially empty list,
    whether or not decoding reports an error: the empty list when the
    annotation is not valid JSON, and otherwise, for a JSON array, one port
    per element of the array; the built-in ports are never added. *)
Theorem C2_reservedPortsInPod_spec (vmi : VirtualMachineInstance) :
  (Annotations vmi !! RESERVED_PORTS_ANNOTATION = None ->
   reservedPortsInPod vmi = [mkPort "vnc" "TCP" 5900; mkPort "vnc-ws" "TCP" 5901]) /\
  (forall data, Annotations vmi !! RESERVED_PORTS_ANNOTATION = Some data ->
     reservedPortsInPod vmi = fst (Json.Unmarshal dec_Ports data []) /\
     (Json.parse data = None -> reservedPortsInPod vmi = []) /\
     (forall elems, Json.parse data = Some (Json.JArray elems) ->
        reservedPortsInPod vmi = List.map (fun v => fst (dec_Port v Port_zero)) elems)).
Proof.
  unfold reservedPortsInPod. split.
  - intros ->. reflexivity.
  - intros data ->.
    destruct (Json.Unmarshal dec_Ports data []) as [ports err] eqn:E.
    split; [reflexivity |].
    unfold Json.Unmarshal in E. split.
    + intros Hp. rewrite Hp in E. congruence.
    + intros elems Hp. rewrite Hp in E.
      unfold dec_Ports, Json.dec_slice in E.
      rewrite <- (dec_elems_fst Port_zero dec_Port elems), E. reflexivity.
Qed.

(** C2 (counterexample). An annotation that is not JSON is reported by
    [json.Unmarshal] as a syntax error, and [reservedPortsInPod] returns
    the empty list, not the built-in list. *)
Lemma C2_reservedPortsInPod_counterexample :
  Json.Unmarshal dec_Ports "5900/tcp" [] = ([], Some Json.syntax_error) /\
  reservedPortsInPod (Inputs.vmi_with_ports "5900/tcp") = [] /\
  reservedPortsInPod (Inputs.vmi_with_ports "5900/tcp") <> default_reserved_ports.
Proof.
  assert (E : reservedPortsInPod (Inputs.vmi_with_ports "5900/tcp") = [])
    by (vm_compute; reflexivity).
  split; [vm_compute; reflexivity |].
  split; [exact E |].
  rewrite E. discriminate.
Qed.

End ReservedPortsFacts.

Section AgentParserFacts.
Import AgentPoller.

Example parseHostname_wrapped :
  parseHostname Inputs.agent_hostname_reply = Returns ("vm-1", None).
Proof. vm_compute. reflexivity. Qed.

(** A reply the pattern does not match has no submatches, and taking the
    second of them is a run-time panic. *)
Lemma stripAgentResponse_unmatched (agentReply : string) :
  Regexp.FindStringSubmatch stripRE 1 agentReply = None ->
  stripAgentResponse agentReply = Panics index_out_of_range.
Proof. unfold stripAgentResponse. intros ->. reflexivity. Qed.

(** Every parser built on [stripAgentResponse] panics on such a reply. *)
Lemma parsers_panic_on_unmatched (agentReply : string) :
  Regexp.FindStringSubmatch stripRE 1 agentReply = None ->
  parseGuestOSInfo agentReply = Panics index_out_of_range /\
  parseInterfaces agentReply = Panics index_out_of_range /\
  parseHostname agentReply = Panics index_out_of_range /\
  parseTimezone agentReply = Panics index_out_of_range /\
  parseFilesystem agentReply = Panics index_out_of_range /\
  parseUsers agentReply = Panics index_out_of_range /\
  parseAgent agentReply = Panics index_out_of_range.
Proof.
  intros H.
  unfold parseGuestOSInfo, parseInterfaces, parseHostname, parseTimezone,
    parseFilesystem, parseUsers, parseAgent.
  rewrite (stripAgentResponse_unmatched _ H). simpl. repeat split.
Qed.

(** The sibling [stripAgentStringResponse] checks the number of submatches,
    so [ParseFSFreezeStatus] answers the same reply with an error. *)
Lemma ParseFSFreezeStatus_unmatched (agentReply : string) :
  Regexp.FindStringSubmatch stripStringRE 1 agentReply = None ->
  ParseFSFreezeStatus agentReply
  = (mkApiFSFreeze "",
     Some ("Failed to strip FSFreeze status: " ++ agentReply)%string).
Proof.
  unfold ParseFSFreezeStatus, stripAgentStringResponse. intros ->. reflexivity.
Qed.

(** C9 (the code at the failing input). On the agent's error reply, which
    lacks the wrapping the pattern expects, each of the seven parsers
    panics instead of returning an error, while the guarded sibling
    [ParseFSFreezeStatus] returns an error. *)
Theorem C9_parsers_panic_on_error_reply :
  parseGuestOSInfo Inputs.agent_error_reply = Panics index_out_of_range /\
  parseInterfaces Inputs.agent_error_reply = Panics index_out_of_range /\
  parseHostname Inputs.agent_error_reply = Panics index_out_of_range /\
  parseTimezone Inputs.agent_error_reply = Panics index_out_of_range /\
  parseFilesystem Inputs.agent_error_reply = Panics index_out_of_range /\
  parseUsers Inputs.agent_error_reply = Panics index_out_of_range /\
  parseAgent Inputs.agent_error_reply = Panics index_out_of_range /\
  snd (ParseFSFreezeStatus Inputs.agent_error_reply) <> None.
Proof.
  assert (H : Regexp.FindStringSubmatch stripRE 1 Inputs.agent_error_reply = None)
    by (vm_compute; reflexivity).
  destruct (parsers_panic_on_unmatched _ H) as (H1 & H2 & H3 & H4 & H5 & H6 & H7).
  repeat (split; [assumption |]).
  rewrite ParseFSFreezeStatus_unmatched by (vm_compute; reflexivity).
  discriminate.
Qed.

End AgentParserFacts.

Section MergeFacts.
Import AgentPoller.










Example merge_spec_example :
  MergeAgentStatusesWithDomainData Inputs.dom_eth0
    (convertInterfaceStatusesFromAgentJSON Inputs.agent_two_nics)
  = [ mkInterfaceStatus "eth0" "aa:bb" "10.0.0.5" ["10.0.0.5"] "ens3"
        InfoSourceDomainAndGA;
      mkInterfaceStatus "" "cc:dd" "10.0.0.6" ["fe80::1"; "10.0.0.6"] "ens4"
        InfoSourceGuestAgent ].
Proof. vm_compute. reflexivity. Qed.




End MergeFacts.

Section NdpFacts.
Import Ndp.

Variable rad : RouterAdvertiser.

Lemma Serve_loop_starts_with_read (writes : nat -> option string) (reads : list ReadResult) :
  forall sent, startsWithWrite (fst (Serve_loop rad writes sent reads)) = false.
Proof.
  destruct reads as [|[err | msg] rest]; intros sent; simpl; try reflexivity.
  destruct msg; simpl;
    try (destruct (Serve_loop rad writes sent rest); reflexivity).
  destruct (writes sent); simpl; [reflexivity |].
  destruct (Serve_loop rad writes (S sent) rest); reflexivity.
Qed.

Lemma Serve_loop_wellFormed (writes : nat -> option string) (reads : list ReadResult) :
  forall sent, wellFormed rad (fst (Serve_loop rad writes sent reads)).
Proof.
  induction reads as [|[err | msg] rest IH]; intros sent; simpl; try reflexivity.
  destruct msg; simpl.
  - destruct (writes sent) as [e|] eqn:W; simpl.
    + repeat split; auto.
    + pose proof (IH (S sent)) as WF.
      pose proof (Serve_loop_starts_with_read writes rest (S sent)) as SW.
      destruct (Serve_loop rad writes (S sent) rest) as [evs out]. simpl in *.
      repeat split; auto. intros H. congruence.
  - pose proof (IH sent) as WF.
    pose proof (Serve_loop_starts_with_read writes rest sent) as SW.
    destruct (Serve_loop rad writes sent rest) as [evs out]. simpl in *. auto.
  - pose proof (IH sent) as WF.
    pose proof (Serve_loop_starts_with_read writes rest sent) as SW.
    destruct (Serve_loop rad writes sent rest) as [evs out]. simpl in *. auto.
  - pose proof (IH sent) as WF.
    pose proof (Serve_loop_starts_with_read writes rest sent) as SW.
    destruct (Serve_loop rad writes sent rest) as [evs out]. simpl in *. auto.
Qed.

Lemma Serve_loop_counts (writes : nat -> option string) (reads : list ReadResult) :
  forall sent,
    countWrites (fst (Serve_loop rad writes sent reads))
    = countSolicitations (fst (Serve_loop rad writes sent reads)).
Proof.
  unfold countWrites, countSolicitations, readResults.
  induction reads as [|[err | msg] rest IH]; intros sent; simpl; try reflexivity.
  destruct msg; simpl.
  - destruct (writes sent) as [e|] eqn:W; simpl; [reflexivity |].
    specialize (IH (S sent)).
    destruct (Serve_loop rad writes (S sent) rest) as [evs out]. simpl in *.
    rewrite IH. reflexivity.
  - specialize (IH sent).
    destruct (Serve_loop rad writes sent rest) as [evs out]. simpl in *. exact IH.
  - specialize (IH sent).
    destruct (Serve_loop rad writes sent rest) as [evs out]. simpl in *. exact IH.
  - specialize (IH sent).
    destruct (Serve_loop rad writes sent rest) as [evs out]. simpl in *. exact IH.
Qed.

(** The reads of the trace are the known reads, in order, up to where the
    loop stopped. *)
Lemma Serve_loop_reads_prefix (writes : nat -> option string) (reads : list ReadResult) :
  forall sent,
    exists rest, reads = readResults (fst (Serve_loop rad writes sent reads)) ++ rest.
Proof.
  unfold readResults.
  induction reads as [|[err | msg] rest IH]; intros sent; simpl.
  - exists []. reflexivity.
  - exists rest. reflexivity.
  - destruct msg; simpl.
    + destruct (writes sent) as [e|] eqn:W; simpl; [exists rest; reflexivity |].
      destruct (IH (S sent)) as [tl Htl].
      destruct (Serve_loop rad writes (S sent) rest) as [evs out]. simpl in *.
      exists tl. f_equal. exact Htl.
    + destruct (IH sent) as [tl Htl].
      destruct (Serve_loop rad writes sent rest) as [evs out]. simpl in *.
      exists tl. f_equal. exact Htl.
    + destruct (IH sent) as [tl Htl].
      destruct (Serve_loop rad writes sent rest) as [evs out]. simpl in *.
      exists tl. f_equal. exact Htl.
    + destruct (IH sent) as [tl Htl].
      destruct (Serve_loop rad writes sent rest) as [evs out]. simpl in *.
      exists tl. f_equal. exact Htl.
Qed.

(** A failed read in the trace is what the loop returned. *)
Lemma Serve_loop_read_error (writes : nat -> option string) (reads : list ReadResult)
    (err : string) :
  forall sent,
    In (EvReadFrom (inl err)) (fst (Serve_loop rad writes sent reads)) ->
    snd (Serve_loop rad writes sent reads) = Returned err.
Proof.
  induction reads as [|[e | msg] rest IH]; intros sent; simpl.
  - intros [].
  - intros [H | []]. congruence.
  - destruct msg; simpl.
    + destruct (writes sent) as [e|] eqn:W; simpl.
      * intros [H | [H | []]]; discriminate.
      * specialize (IH (S sent)).
        destruct (Serve_loop rad writes (S sent) rest) as [evs out]. simpl in *.
        intros [H | [H | H]]; try discriminate. auto.
    + specialize (IH sent).
      destruct (Serve_loop rad writes sent rest) as [evs out]. simpl in *.
      intros [H | H]; try discriminate. auto.
    + specialize (IH sent).
      destruct (Serve_loop rad writes sent rest) as [evs out]. simpl in *.
      intros [H | H]; try discriminate. auto.
    + specialize (IH sent).
      destruct (Serve_loop rad writes sent rest) as [evs out]. simpl in *.
      intros [H | H]; try discriminate. auto.
Qed.

(** While no write fails, the loop goes on until the first failed read and
    returns its error; without one it is still reading. *)
Lemma Serve_loop_progress (writes : nat -> option string) (reads : list ReadResult) :
  (forall n, writes n = None) ->
  forall sent,
    match firstReadError reads with
    | Some (before, err) =>
        snd (Serve_loop rad writes sent reads) = Returned err /\
        readResults (fst (Serve_loop rad writes sent reads)) = before ++ [inl err]
    | None =>
        snd (Serve_loop rad writes sent reads) = WaitingForRead /\
        readResults (fst (Serve_loop rad writes sent reads)) = reads
    end.
Proof.
  intros Hw. unfold readResults.
  induction reads as [|[e | msg] rest IH]; intros sent; simpl.
  - auto.
  - auto.
  - assert (G : forall s,
               match firstReadError rest with
               | Some (before, err) =>
                   snd (Serve_loop rad writes s rest) = Returned err /\
                   inr msg :: flat_map (fun e => match e with EvReadFrom r => [r] | _ => [] end)
                              (fst (Serve_loop rad writes s rest))
                   = (inr msg :: before) ++ [inl err]
               | None =>
                   snd (Serve_loop rad writes s rest) = WaitingForRead /\
                   inr msg :: flat_map (fun e => match e with EvReadFrom r => [r] | _ => [] end)
                              (fst (Serve_loop rad writes s rest))
                   = inr msg :: rest
               end).
    { intros s. specialize (IH s).
      destruct (firstReadError rest) as [[before err]|]; destruct IH as [H1 H2];
        (split; [exact H1 | simpl; f_equal; exact H2]). }
    destruct msg; simpl.
    + rewrite Hw. simpl. specialize (G (S sent)).
      destruct (Serve_loop rad writes (S sent) rest) as [evs out]. simpl in *.
      destruct (firstReadError rest) as [[before err]|]; exact G.
    + specialize (G sent).
      destruct (Serve_loop rad writes sent rest) as [evs out]. simpl in *.
      destruct (firstReadError rest) as [[before err]|]; exact G.
    + specialize (G sent).
      destruct (Serve_loop rad writes sent rest) as [evs out]. simpl in *.
      destruct (firstReadError rest) as [[before err]|]; exact G.
    + specialize (G sent).
      destruct (Serve_loop rad writes sent rest) as [evs out]. simpl in *.
      destruct (firstReadError rest) as [[before err]|]; exact G.
Qed.

(** C8. In every execution of [Serve]: each Router Solicitation read is
    followed at once, before the next read, by exactly one Router
    Advertisement written to the all-nodes multicast address, with router
    lifetime 65535 seconds and infinite reachable time; a message of
    another kind is followed by no write; as many advertisements are
    written as solicitations were read; the reads happen in the order of
    arrival; a failed read is the last event and its error is returned;
    and while no write fails the loop runs until the first failed read and
    returns its error, and is still reading when there is none. *)
Theorem C8_Serve_spec (conn : Connection) :
  wellFormed rad (fst (Serve rad conn)) /\
  countWrites (fst (Serve rad conn)) = countSolicitations (fst (Serve rad conn)) /\
  (exists rest, reads conn = readResults (fst (Serve rad conn)) ++ rest) /\
  (forall err, In (EvReadFrom (inl err)) (fst (Serve rad conn)) ->
               snd (Serve rad conn) = Returned err) /\
  ((forall n, writes conn n = None) ->
   match firstReadError (reads conn) with
   | Some (before, err) =>
       snd (Serve rad conn) = Returned err /\
       readResults (fst (Serve rad conn)) = before ++ [inl err]
   | None =>
       snd (Serve rad conn) = WaitingForRead /\
       readResults (fst (Serve rad conn)) = reads conn
   end).
Proof.
  unfold Serve.
  split; [apply Serve_loop_wellFormed |].
  split; [apply Serve_loop_counts |].
  split; [apply Serve_loop_reads_prefix |].
  split; [intros err; apply Serve_loop_read_error |].
  intros Hw. apply Serve_loop_progress. exact Hw.
Qed.

End NdpFacts.

Section RouterFacts.
Import Netlink Driver Router.

Variable h : NetworkHandler.
Variable x : Externals.

(** *** Every method only appends to the record of calls *)
























(** *** The preparation runs its steps in order *)






(** *** The first three steps leave the VMI of the configurator alone *)

Lemma preserves_ret {A B : Type} (f : RouterPodNetworkConfigurator -> B) (a : A) :
  preserves f (ret a).
Proof. intros s. reflexivity. Qed.

Lemma preserves_fail {A B : Type} (f : RouterPodNetworkConfigurator -> B) (err : string) :
  preserves f (@fail A err).
Proof. intros s. reflexivity. Qed.

Lemma preserves_get {B : Type} (f : RouterPodNetworkConfigurator -> B) : preserves f get.
Proof. intros s. reflexivity. Qed.

Lemma preserves_attrs {B : Type} (f : RouterPodNetworkConfigurator -> B) (l : option Link) :
  preserves f (attrs l).
Proof. intros s. destruct l; reflexivity. Qed.

Lemma preserves_call {A B : Type} (f : RouterPodNetworkConfigurator -> B) (c : Call)
    (answer : Log -> A) :
  preserves f (call c answer).
Proof. intros s. reflexivity. Qed.

Lemma preserves_modify {B : Type} (f : RouterPodNetworkConfigurator -> B)
    (g : RouterPodNetworkConfigurator -> RouterPodNetworkConfigurator) :
  (forall b, f (g b) = f b) -> preserves f (modify g).
Proof. intros Hg s. apply Hg. Qed.

Lemma preserves_bind {A B C : Type} (f : RouterPodNetworkConfigurator -> C) (m : M A)
    (k : A -> M B) :
  preserves f m -> (forall a, preserves f (k a)) -> preserves f (bind m k).
Proof.
  intros Hm Hk s. unfold bind. specialize (Hm s).
  destruct (m s) as [s1 [a | err | msg]]; simpl in *; [| exact Hm ..].
  rewrite Hk. exact Hm.
Qed.

Lemma preserves_on_error {A B C : Type} (f : RouterPodNetworkConfigurator -> C) (m : M A)
    (c : M B) :
  preserves f m -> preserves f c -> preserves f (on_error m c).
Proof.
  intros Hm Hc s. unfold on_error. specialize (Hm s).
  destruct (m s) as [s1 [a | err | msg]]; simpl in *; [exact Hm | | exact Hm].
  specialize (Hc s1).
  destruct (c s1) as [s2 [b | err2 | msg2]]; simpl in *; congruence.
Qed.

Lemma preserves_when {B : Type} (f : RouterPodNetworkConfigurator -> B) (c : bool)
    (m : M unit) :
  preserves f m -> preserves f (when c m).
Proof. intros Hm. destruct c; [exact Hm | apply preserves_ret]. Qed.

Lemma preserves_call_err {B : Type} (f : RouterPodNetworkConfigurator -> B) (c : Call)
    (answer : Log -> option string) :
  preserves f (call_err c answer).
Proof.
  apply preserves_bind; [apply preserves_call |].
  intros [err|]; [apply preserves_fail | apply preserves_ret].
Qed.

Lemma preserves_call_val {A B : Type} (f : RouterPodNetworkConfigurator -> B) (c : Call)
    (answer : Log -> string + A) :
  preserves f (call_val c answer).
Proof.
  apply preserves_bind; [apply preserves_call |].
  intros [err|a]; [apply preserves_fail | apply preserves_ret].
Qed.

Ltac preserves_auto :=
  repeat first
    [ apply preserves_ret | apply preserves_fail | apply preserves_get
    | apply preserves_attrs
    | apply preserves_modify; intros; reflexivity
    | apply preserves_call_err | apply preserves_call_val | apply preserves_call
    | apply preserves_when | apply preserves_on_error
    | apply preserves_bind; [| intros]
    | match goal with
      | |- preserves _ (match ?v with _ => _ end) => destruct v
      | |- preserves _ (let _ := _ in _) => cbv zeta
      end ].

Lemma configurePodNic_preserves_vmi :
  preserves vmi (on_error (configurePodNic h) (b <- get ;; attrs (podNicLink b))).
Proof. unfold configurePodNic. preserves_auto. Qed.

Lemma createTapDevice_preserves_vmi : preserves vmi (createTapDevice h x).
Proof. unfold createTapDevice. preserves_auto. Qed.

Lemma createBridge_preserves_vmi : preserves vmi (createBridge h).
Proof. unfold createBridge. preserves_auto. Qed.

(** The preparation is the run in order of its six steps, for the reserved
    ports of the VMI it starts with. *)
Lemma Prepare_inOrder (s : State) :
  PreparePodNetworkInterface h x s
  = fst (inOrder (prepareSteps h x (ReservedPorts.reservedPortsInPod (vmi (cfg s)))) s).
Proof.
  pose proof (configurePodNic_preserves_vmi s) as V1.
  unfold PreparePodNetworkInterface, prepareSteps.
  cbv [inOrder bind get natStepIPv4 natStepIPv6] in *.
  destruct (on_error (configurePodNic h) _ s) as [s1 [[] | e | m]]; [| reflexivity ..].
  pose proof (createTapDevice_preserves_vmi s1) as V2.
  destruct (createTapDevice h x s1) as [s2 [[] | e | m]]; [| reflexivity ..].
  pose proof (createBridge_preserves_vmi s2) as V3.
  destruct (createBridge h s2) as [s3 [[] | e | m]]; [| reflexivity ..].
  cbn [fst] in V1, V2, V3.
  rewrite <- V1, <- V2, <- V3.
  destruct (when (ipv4Enabled (cfg s3)) _ s3) as [s4 [[] | e | m]]; [| reflexivity ..].
  destruct (when (ipv6Enabled (cfg s4)) _ s4) as [s5 [[] | e | m]]; [| reflexivity ..].
  destruct (configureNeighbourReply h s5) as [s6 [[] | e | m]]; reflexivity.
Qed.

(** *** Every method stops at the first error it looks at *)

























End RouterFacts.

Section RouterRuns.
Import Netlink Driver Router.

Variable h : NetworkHandler.
Variable x : Externals.

Ltac unfold_monad :=
  cbv [bind on_error wrap_error call_err call_val call get modify when attrs ret fail
       cfg log fst snd].

Ltac case_answers :=
  repeat match goal with
         | |- context [match ?X with _ => _ end] =>
             lazymatch X with
             | context [match _ with _ => _ end] => fail
             | _ => destruct X eqn:?; simpl in *
             end
         end.


(** Errors of the address deletions are dropped: the step goes on. *)
Lemma configurePodNic_ignores_AddrDel (s : State) (link : Link) :
  podNicLink (cfg s) = Some link ->
  LinkSetDown h (log s) (Some link) = None ->
  In (CSetRandomMac (Link_Name link)) (log (fst (configurePodNic h s))).
Proof.
  destruct s as [b l]. simpl. intros Hlink Hdown.
  unfold configurePodNic. unfold_monad. simpl. rewrite Hlink, Hdown. simpl.
  destruct (ipv4Enabled b), (ipv6Enabled b); simpl;
    case_answers; rewrite !in_app_iff; simpl; auto 10.
Qed.

Lemma step1_safe (s : State) (link : Link) :
  podNicLink (cfg s) = Some link ->
  cfg (fst (on_error (configurePodNic h) (b <- get ;; attrs (podNicLink b)) s)) = cfg s /\
  isPanic (snd (on_error (configurePodNic h) (b <- get ;; attrs (podNicLink b)) s)) = false.
Proof.
  destruct s as [b l]. simpl. intros Hlink.
  unfold configurePodNic. unfold_monad. simpl. rewrite Hlink.
  destruct (LinkSetDown h l (Some link)); simpl; [rewrite Hlink; auto |].
  destruct (ipv4Enabled b), (ipv6Enabled b); simpl;
    case_answers; simpl; rewrite ?Hlink; auto; congruence.
Qed.

Lemma createTapDevice_safe (s : State) (link : Link) :
  podNicLink (cfg s) = Some link ->
  podNicLink (cfg (fst (createTapDevice h x s))) = Some link /\
  isPanic (snd (createTapDevice h x s)) = false /\
  (snd (createTapDevice h x s) = Ok tt ->
   isSome (tapNicLink (cfg (fst (createTapDevice h x s)))) = true).
Proof.
  destruct s as [b l]. simpl. intros Hlink.
  unfold createTapDevice. unfold_monad. simpl. rewrite Hlink.
  case_answers; simpl; repeat split; auto; discriminate.
Qed.

Lemma createBridge_safe (s : State) (link : Link) :
  podNicLink (cfg s) = Some link ->
  isSome (tapNicLink (cfg s)) = true ->
  podNicLink (cfg (fst (createBridge h s))) = Some link /\
  isPanic (snd (createBridge h s)) = false /\
  (snd (createBridge h s) = Ok tt ->
   isSome (bridgeLink (cfg (fst (createBridge h s)))) = true).
Proof.
  destruct s as [b l]. simpl. intros Hlink Htap.
  destruct (tapNicLink b) as [tap|] eqn:Et; [| discriminate].
  unfold createBridge. unfold_monad. simpl. rewrite Et.
  destruct (ipv4Enabled b), (ipv6Enabled b); simpl;
    case_answers; simpl; repeat split; auto; discriminate.
Qed.

(** *** The steps after the bridge leave the configurator alone *)

Section Frames.

Variable b0 : RouterPodNetworkConfigurator.

Lemma frames_ret {A : Type} (a : A) : frames b0 (ret a).
Proof. intros s H. auto. Qed.

Lemma frames_fail {A : Type} (err : string) : frames b0 (@fail A err).
Proof. intros s H. auto. Qed.

Lemma frames_attrs (l : Link) : frames b0 (attrs (Some l)).
Proof. intros s H. auto. Qed.

Lemma frames_call {A : Type} (c : Call) (answer : Log -> A) : frames b0 (call c answer).
Proof. intros s H. auto. Qed.

Lemma frames_bind {A B : Type} (m : M A) (k : A -> M B) :
  frames b0 m -> (forall a, frames b0 (k a)) -> frames b0 (bind m k).
Proof.
  intros Hm Hk s Hs. unfold bind.
  destruct (Hm s Hs) as [E P].
  destruct (m s) as [s1 [a | err | msg]]; simpl in *;
    [apply Hk; exact E | auto | discriminate].
Qed.

Lemma frames_bind_get {B : Type} (k : RouterPodNetworkConfigurator -> M B) :
  frames b0 (k b0) -> frames b0 (bind get k).
Proof. intros Hk s Hs. unfold bind, get. simpl. rewrite Hs. apply Hk. exact Hs. Qed.

Lemma frames_on_error {A B : Type} (m : M A) (c : M B) :
  frames b0 m -> frames b0 c -> frames b0 (on_error m c).
Proof.
  intros Hm Hc s Hs. unfold on_error.
  destruct (Hm s Hs) as [E P].
  destruct (m s) as [s1 [a | err | msg]]; simpl in *; [auto | | discriminate].
  destruct (Hc s1 E) as [E2 P2].
  destruct (c s1) as [s2 [b | err2 | msg2]]; simpl in *; [auto | auto | discriminate].
Qed.

Lemma frames_when (c : bool) (m : M unit) : frames b0 m -> frames b0 (when c m).
Proof. intros Hm. destruct c; [exact Hm | apply frames_ret]. Qed.

Lemma frames_forEach {A : Type} (l : list A) (body : A -> M unit) :
  (forall a, frames b0 (body a)) -> frames b0 (forEach l body).
Proof.
  intros Hb. induction l as [|a l IH]; simpl.
  - apply frames_ret.
  - apply frames_bind; [apply Hb | intros _; exact IH].
Qed.

Lemma frames_call_err (c : Call) (answer : Log -> option string) :
  frames b0 (call_err c answer).
Proof.
  apply frames_bind; [apply frames_call |].
  intros [err|]; [apply frames_fail | apply frames_ret].
Qed.

End Frames.

Ltac frames_auto :=
  repeat first
    [ apply frames_ret | apply frames_fail | apply frames_attrs
    | apply frames_call_err | apply frames_call
    | apply frames_when | apply frames_on_error
    | apply frames_forEach; intros
    | apply frames_bind_get
    | apply frames_bind; [| intros]
    | match goal with
      | |- frames _ (match ?v with _ => _ end) => destruct v
      end ].

Lemma createNAT_frames (b : RouterPodNetworkConfigurator) (link bridge : Link)
    proto ports localAddr podIP defaultDst gw mac :
  podNicLink b = Some link ->
  bridgeLink b = Some bridge ->
  frames b
    (createNATRulesForReservedPorts h x proto ports localAddr podIP defaultDst gw mac).
Proof.
  intros Hlink Hbridge. unfold createNATRulesForReservedPorts.
  apply frames_bind_get. rewrite Hlink, Hbridge. frames_auto.
Qed.

Lemma configureNeighbourReply_frames (b : RouterPodNetworkConfigurator) (link : Link) :
  podNicLink b = Some link -> frames b (configureNeighbourReply h).
Proof.
  intros Hlink. unfold configureNeighbourReply.
  apply frames_bind_get. rewrite Hlink. frames_auto.
Qed.

(** After a discovery that found the pod's link, the preparation returns:
    it does not panic. *)
Lemma Prepare_no_panic (s : State) (link : Link) :
  podNicLink (cfg s) = Some link ->
  isPanic (snd (PreparePodNetworkInterface h x s)) = false.
Proof.
  intros Hlink. rewrite Prepare_inOrder.
  generalize (ReservedPorts.reservedPortsInPod (vmi (cfg s))). intros ports.
  unfold prepareSteps. cbn [inOrder].
  destruct (step1_safe s link Hlink) as [E1 P1].
  destruct (on_error (configurePodNic h) _ s) as [s1 [[] | e | m]];
    simpl in *; try reflexivity; try discriminate.
  rewrite <- E1 in Hlink.
  destruct (createTapDevice_safe s1 link Hlink) as (L2 & P2 & T2).
  destruct (createTapDevice h x s1) as [s2 [[] | e | m]];
    simpl in *; try reflexivity; try discriminate.
  specialize (T2 eq_refl).
  destruct (createBridge_safe s2 link L2 T2) as (L3 & P3 & B3).
  destruct (createBridge h s2) as [s3 [[] | e | m]];
    simpl in *; try reflexivity; try discriminate.
  specialize (B3 eq_refl).
  destruct (bridgeLink (cfg s3)) as [bridge|] eqn:Hbridge; [| discriminate].
  assert (F4 : frames (cfg s3) (natStepIPv4 h x ports)).
  { unfold natStepIPv4. apply frames_bind_get. apply frames_when.
    apply (createNAT_frames _ link bridge); assumption. }
  assert (F5 : frames (cfg s3) (natStepIPv6 h x ports)).
  { unfold natStepIPv6. apply frames_bind_get. apply frames_when.
    apply (createNAT_frames _ link bridge); assumption. }
  pose proof (configureNeighbourReply_frames (cfg s3) link L3) as F6.
  destruct (F4 s3 eq_refl) as [E4 P4].
  destruct (natStepIPv4 h x ports s3) as [s4 [[] | e | m]];
    simpl in *; try reflexivity; try discriminate.
  destruct (F5 s4 E4) as [E5 P5].
  destruct (natStepIPv6 h x ports s4) as [s5 [[] | e | m]];
    simpl in *; try reflexivity; try discriminate.
  destruct (F6 s5 E5) as [E6 P6].
  destruct (configureNeighbourReply h s5) as [s6 [[] | e | m]];
    simpl in *; try reflexivity; try discriminate.
Qed.

(** *** Discovery *)

Lemma skipn_length_app {A : Type} (l t : list A) : skipn (length l) (l ++ t) = t.
Proof. rewrite skipn_app, skipn_all, Nat.sub_diag. reflexivity. Qed.

Ltac run_handler H0 :=
  repeat (cbn;
          first
            [ rewrite H0
            | match goal with
              | |- context [match ?X with _ => _ end] =>
                  lazymatch X with
                  | context [match _ with _ => _ end] => fail
                  | _ => destruct X eqn:?
                  end
              end ]).

(** Discovery of a pod with an enabled family without routes: how it ends
    and the calls it made. *)
Lemma Discover_without_routes_run (b : RouterPodNetworkConfigurator) (l : Log)
    (podIfaceName : string) (link : Link) (ipv4 ipv6 : option Addr) :
  LinkByName h l podIfaceName = inr link ->
  ReadIPv4AndIPv6AddrFromLink h (l ++ [CLinkByName podIfaceName]) podIfaceName
  = inr (ipv4, ipv6) ->
  (ipv4Enabled b || isSome ipv4 = true /\
   (forall l', RouteList h l' (Some link) FAMILY_V4 = inr [])) \/
  (ipv6Enabled b || isSome ipv6 = true /\
   (forall l', RouteList h l' (Some link) FAMILY_V6 = inr [])) ->
  exists b' t err,
    DiscoverPodNetworkInterface h x podIfaceName (mkState b l)
    = (mkState b' (l ++ t), Fail err) /\
    mutations t = if ipv6Enabled b || isSome ipv6 then [CEnableIPv6Flags] else [].
Proof.
  intros Hlink Haddrs Hroutes.
  unfold DiscoverPodNetworkInterface, learnInterfaceRoutes. unfold_monad.
  rewrite Hlink, Haddrs.
  destruct ipv4 as [a4|], ipv6 as [a6|]; cbn in *.
  all: destruct (ipv4Enabled b) eqn:E4, (ipv6Enabled b) eqn:E6; cbn in *.
  all: destruct Hroutes as [[Hen H0] | [Hen H0]]; try discriminate.
  all: run_handler H0.
  all: try (exfalso; congruence).
  all: repeat rewrite <- app_assoc; cbn.
  all: do 3 eexists; split; reflexivity.
Qed.

(** C3 (amended). When the pod's link and addresses are found and an
    enabled family has no route on the link, [DiscoverPodNetworkInterface]
    fails with an error, and the only call it has made that changes the
    host's state is [EnableIPv6Flags], made when IPv6 is enabled; with
    IPv6 not enabled it has changed nothing. *)
Theorem C3_discover_without_routes (s : State) (podIfaceName : string) (link : Link)
    (ipv4 ipv6 : option Addr) :
  LinkByName h (log s) podIfaceName = inr link ->
  ReadIPv4AndIPv6AddrFromLink h (log s ++ [CLinkByName podIfaceName]) podIfaceName
  = inr (ipv4, ipv6) ->
  (ipv4Enabled (cfg s) || isSome ipv4 = true /\
   (forall l, RouteList h l (Some link) FAMILY_V4 = inr [])) \/
  (ipv6Enabled (cfg s) || isSome ipv6 = true /\
   (forall l, RouteList h l (Some link) FAMILY_V6 = inr [])) ->
  (exists err, snd (DiscoverPodNetworkInterface h x podIfaceName s) = Fail err) /\
  mutations (newCalls s (fst (DiscoverPodNetworkInterface h x podIfaceName s)))
  = if ipv6Enabled (cfg s) || isSome ipv6 then [CEnableIPv6Flags] else [].
Proof.
  destruct s as [b l]. cbn [cfg log]. intros Hlink Haddrs Hroutes.
  destruct (Discover_without_routes_run b l podIfaceName link ipv4 ipv6
              Hlink Haddrs Hroutes) as (b' & t & err & -> & Hm).
  split; [exists err; reflexivity |].
  unfold newCalls. cbn [fst log]. rewrite skipn_length_app. exact Hm.
Qed.

End RouterRuns.

Section RouterTheorems.
Import Netlink Driver Router.

Variable h : NetworkHandler.
Variable x : Externals.




(** C4 (amended). When [GenerateNonRecoverableDHCPConfig] returns a
    configuration for a pod with an enabled family, its IPv4 gateway is,
    if IPv4 is enabled, the fixed address 169.254.75.1 given to the
    bridge, whatever gateway was learned; its IPv6 gateway is, if IPv6 is
    enabled, the learned default IPv6 gateway; the gateway of a family
    that is not enabled is left empty.  It returns whenever the VM's MAC
    is known and the pod's addresses of the enabled families can be
    parsed back from their text. *)
Theorem C4_dhcp_gateways (b : RouterPodNetworkConfigurator) (mac : HardwareAddr) :
  vmMac b = Some mac ->
  (ipv4Enabled b = true ->
   netlink_ParseAddr x (IP_String x (Addr_IP (podIPv4Addr b)) ++ "/32") <> None) ->
  (ipv6Enabled b = true ->
   netlink_ParseAddr x (IP_String x (Addr_IP (podIPv6Addr b)) ++ "/128") <> None) ->
  exists c,
    GenerateNonRecoverableDHCPConfig x b = Returns c /\
    DHCP_Gateway c = (if ipv4Enabled b then [169; 254; 75; 1]%Z else []) /\
    DHCP_IPv6Gateway c = (if ipv6Enabled b then defaultIPv6Gateway b else []).
Proof.
  intros Hmac H4 H6. unfold GenerateNonRecoverableDHCPConfig. rewrite Hmac.
  destruct (ipv4Enabled b) eqn:E4, (ipv6Enabled b) eqn:E6; simpl.
  - destruct (netlink_ParseAddr x (IP_String x (Addr_IP (podIPv4Addr b)) ++ "/32"));
      [| exfalso; apply H4; reflexivity].
    destruct (netlink_ParseAddr x (IP_String x (Addr_IP (podIPv6Addr b)) ++ "/128"));
      [| exfalso; apply H6; reflexivity].
    eexists. split; [reflexivity |]. simpl. auto.
  - destruct (netlink_ParseAddr x (IP_String x (Addr_IP (podIPv4Addr b)) ++ "/32"));
      [| exfalso; apply H4; reflexivity].
    eexists. split; [reflexivity |]. simpl. auto.
  - destruct (netlink_ParseAddr x (IP_String x (Addr_IP (podIPv6Addr b)) ++ "/128"));
      [| exfalso; apply H6; reflexivity].
    eexists. split; [reflexivity |]. simpl. auto.
  - eexists. split; [reflexivity |]. simpl. auto.
Qed.

(** C10. In [createNATRulesForReservedPorts], when IP forwarding could be
    configured, loading the nftables rules fails and there is no iptables
    NAT table, no DNAT rule is installed for any port; the function goes
    on to add the route to the gateway, the permanent neighbour entry of
    the gateway and the route of the pod's address to the bridge, and,
    these three succeeding, returns nil: the missing NAT backend is no
    error. *)
Theorem C10_no_nat_backend (s : State) (link bridge : Link) (proto : Protocol)
    (ports : list V1.Port) (localAddr podIP defaultDst : IPNet) (gw : Net.IP)
    (mac : HardwareAddr) (loadErr : string) :
  let l1 := log s ++ [CConfigureIpForwarding proto] in
  let l2 := l1 ++ [CNftablesLoad proto] in
  let l3 := l2 ++ [CHasNatIptables proto] in
  let l4 := l3 ++ [CRouteAdd (gatewayRoute link defaultDst gw)] in
  let l5 := l4 ++ [CNeighAdd (gatewayNeigh link proto gw mac)] in
  let l6 := l5 ++ [CRouteAdd (podRoute bridge podIP)] in
  podNicLink (cfg s) = Some link ->
  bridgeLink (cfg s) = Some bridge ->
  ConfigureIpForwarding h (log s) proto = None ->
  NftablesLoad h l1 proto = Some loadErr ->
  HasNatIptables h l2 proto = false ->
  RouteAdd h l3 (gatewayRoute link defaultDst gw) = None ->
  NeighAdd h l4 (gatewayNeigh link proto gw mac) = None ->
  RouteAdd h l5 (podRoute bridge podIP) = None ->
  createNATRulesForReservedPorts h x proto ports localAddr podIP defaultDst gw mac s
  = (mkState (cfg s) l6, Ok tt) /\
  List.filter isDnatRule
    (newCalls s
       (fst (createNATRulesForReservedPorts h x proto ports localAddr podIP defaultDst
               gw mac s)))
  = [].
Proof.
  intros l1 l2 l3 l4 l5 l6 Hlink Hbridge Hfwd Hload Hipt Hr1 Hn Hr2.
  destruct s as [b l]. cbn [cfg log] in *.
  assert (E : createNATRulesForReservedPorts h x proto ports localAddr podIP defaultDst
                gw mac (mkState b l) = (mkState b l6, Ok tt)).
  { unfold createNATRulesForReservedPorts.
    cbv [bind on_error call_err call get when attrs ret fail cfg log fst snd].
    rewrite Hfwd. fold l1. rewrite Hload. fold l2. rewrite Hipt, Hlink.
    fold l3. rewrite Hr1. fold l4. rewrite Hn, Hbridge. fold l5. rewrite Hr2.
    reflexivity. }
  split; [exact E |].
  rewrite E. unfold newCalls. cbn [fst log].
  subst l6 l5 l4 l3 l2 l1. repeat rewrite <- app_assoc.
  rewrite skipn_length_app. reflexivity.
Qed.

End RouterTheorems.

(** *** The theorems at concrete pods *)

Section RouterExamples.
Import Netlink Driver Router.

(** The whole preparation of an IPv4-only pod with the default ports. *)
Example Prepare_ipv4_pod :
  PreparePodNetworkInterface Inputs.ipv4_pod Inputs.externals
    (mkState (cfg Inputs.discovered_ipv4) [])
  = (mkState
       (set_bridgeLink (Some (Inputs.link_named "k6t-eth0"))
          (set_tapNicLink (Some (Inputs.link_named "tap0")) (cfg Inputs.discovered_ipv4)))
       [ CLinkSetDown (Some Inputs.eth0);
         CAddrDel (Some Inputs.eth0) Inputs.pod_ipv4;
         CSetRandomMac "eth0";
         CLinkSetUp (Some Inputs.eth0);
         CCreateTapDevice "tap0" 0 4242 1500 "0";
         CLinkByName "tap0";
         CLinkSetUp (Some (Inputs.link_named "tap0"));
         CLinkAdd (Bridge "k6t-eth0");
         CLinkSetMaster (Some (Inputs.link_named "tap0")) (Bridge "k6t-eth0");
         CLinkSetUp (Some (Bridge "k6t-eth0"));
         CParseAddr "169.254.75.1/32";
         CAddrAdd (Bridge "k6t-eth0")
           (Some (mkAddr [169; 254; 75; 1]%Z [255; 255; 255; 255]%Z));
         CLinkByName "k6t-eth0";
         CConfigureIpForwarding ProtocolIPv4;
         CNftablesLoad ProtocolIPv4;
         CNftablesAppendRule ProtocolIPv4 "nat" "prerouting"
           ["iifname"; "eth0"; "tcp"; "dport"; "5900"; "dnat"; "169.254.75.1"];
         CNftablesAppendRule ProtocolIPv4 "nat" "prerouting"
           ["iifname"; "eth0"; "tcp"; "dport"; "5901"; "dnat"; "169.254.75.1"];
         CRouteAdd
           (mkRoute 3 SCOPE_UNIVERSE FLAG_ONLINK
              (Some (mkIPNet [0; 0; 0; 0]%Z [0; 0; 0; 0]%Z)) [10; 0; 0; 1]%Z);
         CNeighAdd
           (mkNeigh 3 FAMILY_V4 NUD_PERMANENT NTF_NONE [10; 0; 0; 1]%Z
              [238; 238; 238; 238; 238; 238]%Z);
         CRouteAdd
           (mkRoute 5 SCOPE_HOST 0
              (Some (mkIPNet [10; 0; 0; 5]%Z [255; 255; 255; 255]%Z)) []);
         CEnableIpv4ArpProxyOnIface "eth0";
         CNeighAdd (mkNeigh 3 FAMILY_V4 NUD_NONE NTF_PROXY [10; 0; 0; 5]%Z []) ],
     Ok tt).
Proof. vm_compute. reflexivity. Qed.

(** When the tap device cannot be created, the preparation returns that
    error after the calls on the pod NIC and the failed call. *)
Example Prepare_failing_tap :
  PreparePodNetworkInterface (Inputs.failing_tap Inputs.ipv4_pod) Inputs.externals
    (mkState (cfg Inputs.discovered_ipv4) [])
  = (mkState (cfg Inputs.discovered_ipv4)
       [ CLinkSetDown (Some Inputs.eth0);
         CAddrDel (Some Inputs.eth0) Inputs.pod_ipv4;
         CSetRandomMac "eth0";
         CLinkSetUp (Some Inputs.eth0);
         CCreateTapDevice "tap0" 0 4242 1500 "0" ],
     Fail "tap: device or resource busy").
Proof. vm_compute. reflexivity. Qed.

Lemma C3_discover_witness :
  LinkByName Inputs.ipv4_pod_without_routes [] "eth0" = inr Inputs.eth0 /\
  RouteList Inputs.ipv4_pod_without_routes [] (Some Inputs.eth0) FAMILY_V4 = inr [] /\
  (exists err,
     snd (DiscoverPodNetworkInterface Inputs.ipv4_pod_without_routes Inputs.externals
            "eth0" Inputs.fresh_state) = Fail err) /\
  mutations
    (newCalls Inputs.fresh_state
       (fst (DiscoverPodNetworkInterface Inputs.ipv4_pod_without_routes Inputs.externals
               "eth0" Inputs.fresh_state)))
  = [].
Proof.
  split; [reflexivity |]. split; [reflexivity |].
  apply (C3_discover_without_routes Inputs.ipv4_pod_without_routes Inputs.externals
           Inputs.fresh_state "eth0" Inputs.eth0 (Some Inputs.pod_ipv4) None).
  - reflexivity.
  - reflexivity.
  - left. split; [reflexivity | intros l; reflexivity].
Defined.

(** C3 (counterexample). An IPv6-only pod without routes: discovery fails
    for want of a gateway, and by then it has called [EnableIPv6Flags],
    which sets kernel flags. *)
Lemma C3_discover_counterexample :
  snd (DiscoverPodNetworkInterface Inputs.ipv6_pod_without_routes Inputs.externals
         "eth0" Inputs.fresh_state)
  = Fail "no gateway address found in routes for eth0" /\
  log (fst (DiscoverPodNetworkInterface Inputs.ipv6_pod_without_routes Inputs.externals
              "eth0" Inputs.fresh_state))
  = [ CLinkByName "eth0"; CReadIPv4AndIPv6AddrFromLink "eth0"; CEnableIPv6Flags;
      CRouteList (Some Inputs.eth0) FAMILY_V6 ] /\
  mutations
    (log (fst (DiscoverPodNetworkInterface Inputs.ipv6_pod_without_routes
                 Inputs.externals "eth0" Inputs.fresh_state)))
  = [CEnableIPv6Flags].
Proof. repeat split; vm_compute; reflexivity. Qed.

Lemma C4_dhcp_gateways_witness :
  vmMac (cfg Inputs.discovered_dual_stack) = Some [2; 66; 10; 0; 0; 5]%Z /\
  exists c,
    GenerateNonRecoverableDHCPConfig Inputs.externals (cfg Inputs.discovered_dual_stack)
    = Returns c /\
    DHCP_Gateway c = [169; 254; 75; 1]%Z /\
    DHCP_IPv6Gateway c = Net.ParseIP "fe80::1".
Proof.
  split; [reflexivity |].
  apply (C4_dhcp_gateways Inputs.externals (cfg Inputs.discovered_dual_stack)
           [2; 66; 10; 0; 0; 5]%Z).
  - reflexivity.
  - intros _. vm_compute. discriminate.
  - intros _. vm_compute. discriminate.
Defined.

(** C4 (counterexample). For an IPv6-only pod whose default gateway is
    fe80::1, the configuration's IPv6 gateway is fe80::1, the learned
    gateway, and not the fixed address of the bridge. *)
Lemma C4_dhcp_gateways_counterexample :
  match GenerateNonRecoverableDHCPConfig Inputs.externals (cfg Inputs.discovered_ipv6) with
  | Returns c =>
      DHCP_IPv6Gateway c = [254; 128; 0; 0; 0; 0; 0; 0; 0; 0; 0; 0; 0; 0; 0; 1]%Z /\
      DHCP_IPv6Gateway c = defaultIPv6Gateway (cfg Inputs.discovered_ipv6) /\
      DHCP_IPv6Gateway c <> IPNet_IP localIPv6Addr
  | Panics _ => False
  end.
Proof. vm_compute. repeat split; discriminate. Qed.

Lemma C10_no_nat_backend_witness :
  NftablesLoad Inputs.ipv4_pod_without_nat [CConfigureIpForwarding ProtocolIPv4]
    ProtocolIPv4 = Some "nft: no such file or directory" /\
  HasNatIptables Inputs.ipv4_pod_without_nat
    [CConfigureIpForwarding ProtocolIPv4; CNftablesLoad ProtocolIPv4] ProtocolIPv4
  = false /\
  createNATRulesForReservedPorts Inputs.ipv4_pod_without_nat Inputs.externals
    ProtocolIPv4 ReservedPorts.default_reserved_ports localIPv4Addr
    (mkIPNet [10; 0; 0; 5]%Z (CIDRMask_full 4))
    (DefaultIPv4Dst Inputs.externals) [10; 0; 0; 1]%Z gatewayMacAddress
    Inputs.bridged_ipv4
  = (mkState (cfg Inputs.bridged_ipv4)
       [ CConfigureIpForwarding ProtocolIPv4;
         CNftablesLoad ProtocolIPv4;
         CHasNatIptables ProtocolIPv4;
         CRouteAdd (gatewayRoute Inputs.eth0 (DefaultIPv4Dst Inputs.externals)
                      [10; 0; 0; 1]%Z);
         CNeighAdd (gatewayNeigh Inputs.eth0 ProtocolIPv4 [10; 0; 0; 1]%Z
                      gatewayMacAddress);
         CRouteAdd (podRoute (Inputs.link_named "k6t-eth0")
                      (mkIPNet [10; 0; 0; 5]%Z (CIDRMask_full 4))) ],
     Ok tt).
Proof.
  split; [reflexivity |]. split; [reflexivity |].
  apply (C10_no_nat_backend Inputs.ipv4_pod_without_nat Inputs.externals
           Inputs.bridged_ipv4 Inputs.eth0 (Inputs.link_named "k6t-eth0") ProtocolIPv4
           ReservedPorts.default_reserved_ports localIPv4Addr
           (mkIPNet [10; 0; 0; 5]%Z (CIDRMask_full 4))
           (DefaultIPv4Dst Inputs.externals) [10; 0; 0; 1]%Z gatewayMacAddress
           "nft: no such file or directory");
    reflexivity.
Defined.

End RouterExamples.

Section NdpExamples.
Import Ndp.

(** Two solicitations, each answered at once by one advertisement to
    ff02::1; the neighbour solicitation between them is not answered; the
    failed read ends the loop and the message after it is never read. *)
Example Serve_until_read_error :
  Serve Inputs.advertiser Inputs.ndp_connection
  = ([ EvReadFrom (inr (MsgRouterSolicitation []));
       EvWriteTo (solicitedAdvertisement Inputs.advertiser) IPv6linklocalallnodes None;
       EvReadFrom (inr (MsgNeighborSolicitation (Net.ParseIP "fe80::2")));
       EvReadFrom (inr (MsgRouterSolicitation []));
       EvWriteTo (solicitedAdvertisement Inputs.advertiser) IPv6linklocalallnodes None;
       EvReadFrom (inl "failed to read NDP. n bytes: 0, err: EOF") ],
     Returned "failed to read NDP. n bytes: 0, err: EOF").
Proof. vm_compute. reflexivity. Qed.

End NdpExamples.

(* ===================================================================== *)
(** * Part III.  Further properties of the code                            *)
(* ===================================================================== *)

(** ** The router-mode configurator *)

Section DiscoveryFacts.
Import Netlink Driver Router.

Variable h : NetworkHandler.
Variable x : Externals.

Ltac run_monad :=
  cbv [bind on_error wrap_error call_err call_val call get modify when attrs ret fail
       cfg log fst snd].

Ltac split_answers :=
  repeat match goal with
         | |- context [match ?X with _ => _ end] =>
             lazymatch X with
             | context [match _ with _ => _ end] => fail
             | _ => destruct X eqn:?; simpl in *
             end
         end.

Lemma length_eqb_nonempty {A : Type} (l : list A) :
  Nat.eqb (length l) 0 = false -> l <> [].
Proof. intros H ->. discriminate H. Qed.

Lemma Discover_success_run (b : RouterPodNetworkConfigurator) (l : Log)
    (podIfaceName : string) :
  snd (DiscoverPodNetworkInterface h x podIfaceName (mkState b l)) = Ok tt ->
  exists link ipv4 ipv6 b' t,
    LinkByName h l podIfaceName = inr link /\
    ReadIPv4AndIPv6AddrFromLink h (l ++ [CLinkByName podIfaceName]) podIfaceName
    = inr (ipv4, ipv6) /\
    fst (DiscoverPodNetworkInterface h x podIfaceName (mkState b l))
    = mkState b' (l ++ t) /\
    discovered h x b podIfaceName link ipv4 ipv6 b'.
Proof.
  unfold DiscoverPodNetworkInterface, learnInterfaceRoutes, discovered, discoveredMac.
  run_monad.
  destruct (LinkByName h l podIfaceName) as [err|link]; [discriminate |].
  destruct (ReadIPv4AndIPv6AddrFromLink h (l ++ [CLinkByName podIfaceName]) podIfaceName)
    as [err|[ipv4 ipv6]]; [discriminate |].
  intros H. exists link, ipv4, ipv6.
  destruct ipv4 as [a4|], ipv6 as [a6|]; cbn in *.
  all: destruct (ipv4Enabled b) eqn:E4, (ipv6Enabled b) eqn:E6; cbn in *.
  all: split_answers; try discriminate.
  all: repeat rewrite <- app_assoc; cbn.
  all: do 2 eexists; split; [reflexivity |]; split; [reflexivity |];
         split; [reflexivity |]; cbn; rewrite ?E4, ?E6.
  all: repeat match goal with
              | |- _ /\ _ => split
              | |- _ -> _ => intros
              | |- _ <> [] => apply length_eqb_nonempty; assumption
              | |- exists _, _ => eexists; eassumption
              | |- _ => first [reflexivity | discriminate | assumption | congruence]
              end.
Qed.

(** X1. A discovery that returns nil has found the pod's link and its
    addresses and has filled in the configurator: the link, the MAC of the
    VM (the one of the interface spec, else the one of the link), the names
    of the tap device and of the bridge, a family being enabled when it was
    already or when an address of it was found, the addresses found, and for
    each enabled family routes, of which there is at least one, and the
    default gateway. *)
Theorem Discover_establishes (s : State) (podIfaceName : string) :
  snd (DiscoverPodNetworkInterface h x podIfaceName s) = Ok tt ->
  exists link ipv4 ipv6,
    LinkByName h (log s) podIfaceName = inr link /\
    ReadIPv4AndIPv6AddrFromLink h (log s ++ [CLinkByName podIfaceName]) podIfaceName
    = inr (ipv4, ipv6) /\
    discovered h x (cfg s) podIfaceName link ipv4 ipv6
      (cfg (fst (DiscoverPodNetworkInterface h x podIfaceName s))).
Proof.
  destruct s as [b l]. intros H.
  destruct (Discover_success_run b l podIfaceName H)
    as (link & ipv4 & ipv6 & b' & t & Hl & Ha & E & D).
  exists link, ipv4, ipv6. rewrite E. auto.
Qed.

(** X2. Whatever the handler answers, the discovery calls nothing but the
    lookup of the link, the reading of its addresses, [EnableIPv6Flags],
    the listing of routes and the lookup of the default gateway; the only
    one of these that changes the host is [EnableIPv6Flags], called at most
    once; and the discovery leaves the VMI, the interface spec, the PID and
    the links of the tap device and of the bridge as they were. *)
Theorem Discover_footprint (s : State) (podIfaceName : string) :
  exists t,
    log (fst (DiscoverPodNetworkInterface h x podIfaceName s)) = log s ++ t /\
    Forall (fun c => discoverCall c = true) t /\
    (mutations t = [] \/ mutations t = [CEnableIPv6Flags]) /\
    vmi (cfg (fst (DiscoverPodNetworkInterface h x podIfaceName s))) = vmi (cfg s) /\
    vmiSpecIface (cfg (fst (DiscoverPodNetworkInterface h x podIfaceName s)))
    = vmiSpecIface (cfg s) /\
    launcherPID (cfg (fst (DiscoverPodNetworkInterface h x podIfaceName s)))
    = launcherPID (cfg s) /\
    tapNicLink (cfg (fst (DiscoverPodNetworkInterface h x podIfaceName s)))
    = tapNicLink (cfg s) /\
    bridgeLink (cfg (fst (DiscoverPodNetworkInterface h x podIfaceName s)))
    = bridgeLink (cfg s).
Proof.
  destruct s as [b l].
  unfold DiscoverPodNetworkInterface, learnInterfaceRoutes. run_monad.
  destruct (LinkByName h l podIfaceName) as [err|link]; cbn.
  2: destruct (ReadIPv4AndIPv6AddrFromLink h (l ++ [CLinkByName podIfaceName])
                 podIfaceName) as [err|[ipv4 ipv6]]; cbn.
  3: destruct ipv4 as [a4|], ipv6 as [a6|]; cbn.
  3-6: destruct (ipv4Enabled b) eqn:E4, (ipv6Enabled b) eqn:E6; cbn.
  all: split_answers.
  all: repeat rewrite <- app_assoc; cbn.
  all: eexists; split; [reflexivity |]; split; [repeat constructor |].
  all: split; [first [left; reflexivity | right; reflexivity] |].
  all: repeat split; reflexivity.
Qed.

(** X3. Every error the discovery returns is the error of a handler call
    handed on as it is (link lookup, address reading, [EnableIPv6Flags],
    route listing), or the message that a link without routes has no
    gateway, or the error of the gateway lookup behind the words "failed to
    get v4 gateway: " or "failed to get v6 gateway: ", or the error of the
    MAC lookup in the interface spec. *)
Theorem Discover_errors (s : State) (podIfaceName : string) (err : string) :
  snd (DiscoverPodNetworkInterface h x podIfaceName s) = Fail err ->
  discoveryError h x (cfg s) podIfaceName err.
Proof.
  destruct s as [b l]. unfold discoveryError.
  unfold DiscoverPodNetworkInterface, learnInterfaceRoutes, no_gateway. run_monad.
  destruct (LinkByName h l podIfaceName) as [e|link] eqn:Hl; cbn.
  { intros [= <-]. left. eauto. }
  destruct (ReadIPv4AndIPv6AddrFromLink h (l ++ [CLinkByName podIfaceName]) podIfaceName)
    as [e|[ipv4 ipv6]] eqn:Ha; cbn.
  { intros [= <-]. right. left. eauto. }
  destruct ipv4 as [a4|], ipv6 as [a6|]; cbn.
  all: destruct (ipv4Enabled b) eqn:E4, (ipv6Enabled b) eqn:E6; cbn.
  all: split_answers; try discriminate.
  all: intros [= <-].
  all: repeat (first [ solve [left; eauto 6] | right ]); first [assumption | reflexivity].
Qed.

End DiscoveryFacts.

Section PreparationFacts.
Import Netlink Driver Router.

Variable h : NetworkHandler.
Variable x : Externals.

Ltac run_monad :=
  cbv [bind on_error wrap_error call_err call_val call get modify when attrs ret fail
       cfg log fst snd].

Ltac split_answers :=
  repeat match goal with
         | |- context [match ?X with _ => _ end] =>
             lazymatch X with
             | context [match _ with _ => _ end] => fail
             | _ => destruct X eqn:?; simpl in *
             end
         end.

(** *** What the preparation leaves alone *)

Lemma preserves_forEach {A B : Type} (f : RouterPodNetworkConfigurator -> B)
    (l : list A) (body : A -> M unit) :
  (forall a, preserves f (body a)) -> preserves f (forEach l body).
Proof.
  intros Hb. induction l as [|a l IH]; simpl.
  - apply preserves_ret.
  - apply preserves_bind; [apply Hb | intros _; exact IH].
Qed.

Lemma Prepare_preserves {B : Type} (f : RouterPodNetworkConfigurator -> B) :
  (forall v b, f (set_tapNicLink v b) = f b) ->
  (forall v b, f (set_bridgeLink v b) = f b) ->
  preserves f (PreparePodNetworkInterface h x).
Proof.
  intros Ht Hb.
  unfold PreparePodNetworkInterface, configurePodNic, createTapDevice, createBridge,
    createNATRulesForReservedPorts, configureNeighbourReply.
  repeat first
    [ apply preserves_ret | apply preserves_fail | apply preserves_get
    | apply preserves_attrs
    | apply preserves_modify; intros; first [apply Ht | apply Hb]
    | apply preserves_call_err | apply preserves_call_val | apply preserves_call
    | apply preserves_when | apply preserves_on_error
    | apply preserves_forEach; intros
    | apply preserves_bind; [| intros]
    | match goal with
      | |- preserves _ (match ?v with _ => _ end) => destruct v
      | |- preserves _ (let _ := _ in _) => cbv zeta
      end ].
Qed.

(** X4. The preparation changes nothing in the configurator but the links
    of the tap device and of the bridge: what the discovery found (the
    pod's link, the families, addresses, routes and gateways, the MAC, the
    device names) is the same after it, however it ends. *)
Theorem Prepare_frame (s : State) :
  cfg (fst (PreparePodNetworkInterface h x s))
  = set_bridgeLink (bridgeLink (cfg (fst (PreparePodNetworkInterface h x s))))
      (set_tapNicLink (tapNicLink (cfg (fst (PreparePodNetworkInterface h x s))))
         (cfg s)).
Proof.
  pose proof (Prepare_preserves vmi (fun _ _ => eq_refl) (fun _ _ => eq_refl) s).
  pose proof (Prepare_preserves vmiSpecIface (fun _ _ => eq_refl) (fun _ _ => eq_refl) s).
  pose proof (Prepare_preserves ipv4Enabled (fun _ _ => eq_refl) (fun _ _ => eq_refl) s).
  pose proof (Prepare_preserves ipv6Enabled (fun _ _ => eq_refl) (fun _ _ => eq_refl) s).
  pose proof (Prepare_preserves launcherPID (fun _ _ => eq_refl) (fun _ _ => eq_refl) s).
  pose proof (Prepare_preserves vmMac (fun _ _ => eq_refl) (fun _ _ => eq_refl) s).
  pose proof (Prepare_preserves podNicLink (fun _ _ => eq_refl) (fun _ _ => eq_refl) s).
  pose proof (Prepare_preserves tapDeviceName (fun _ _ => eq_refl) (fun _ _ => eq_refl) s).
  pose proof (Prepare_preserves bridgeDeviceName (fun _ _ => eq_refl)
                (fun _ _ => eq_refl) s).
  pose proof (Prepare_preserves podIfaceIPv4Routes (fun _ _ => eq_refl)
                (fun _ _ => eq_refl) s).
  pose proof (Prepare_preserves podIPv4Addr (fun _ _ => eq_refl) (fun _ _ => eq_refl) s).
  pose proof (Prepare_preserves podIfaceIPv6Routes (fun _ _ => eq_refl)
                (fun _ _ => eq_refl) s).
  pose proof (Prepare_preserves podIPv6Addr (fun _ _ => eq_refl) (fun _ _ => eq_refl) s).
  pose proof (Prepare_preserves defaultIPv4Gateway (fun _ _ => eq_refl)
                (fun _ _ => eq_refl) s).
  pose proof (Prepare_preserves defaultIPv6Gateway (fun _ _ => eq_refl)
                (fun _ _ => eq_refl) s).
  destruct (cfg (fst (PreparePodNetworkInterface h x s))), (cfg s).
  unfold set_bridgeLink, set_tapNicLink. cbn in *. subst. reflexivity.
Qed.

(** X5. After a discovery that returned nil, the preparation returns (it
    does not panic), and the interface spec of the domain can be generated
    before and after it: its MAC is the text of the MAC the discovery
    settled on. *)
Theorem Discover_then_Prepare (s : State) (podIfaceName : string) :
  snd (DiscoverPodNetworkInterface h x podIfaceName s) = Ok tt ->
  exists link,
    LinkByName h (log s) podIfaceName = inr link /\
    isPanic
      (snd (PreparePodNetworkInterface h x
              (fst (DiscoverPodNetworkInterface h x podIfaceName s)))) = false /\
    GenerateNonRecoverableDomainIfaceSpec
      (cfg (fst (DiscoverPodNetworkInterface h x podIfaceName s)))
    = Returns (mkDomainIfaceSpec
                 (HardwareAddr_String (discoveredMac x (vmiSpecIface (cfg s)) link))) /\
    GenerateNonRecoverableDomainIfaceSpec
      (cfg (fst (PreparePodNetworkInterface h x
                   (fst (DiscoverPodNetworkInterface h x podIfaceName s)))))
    = Returns (mkDomainIfaceSpec
                 (HardwareAddr_String (discoveredMac x (vmiSpecIface (cfg s)) link))).
Proof.
  destruct s as [b l]. intros H.
  destruct (Discover_success_run h x b l podIfaceName H)
    as (link & ipv4 & ipv6 & b' & t & Hl & Ha & E & D).
  exists link. rewrite E. cbn [cfg log fst].
  destruct D as (Hlink & Hmac & _).
  split; [exact Hl |].
  split; [apply (Prepare_no_panic h x _ link); exact Hlink |].
  unfold GenerateNonRecoverableDomainIfaceSpec.
  rewrite (Prepare_preserves vmMac (fun _ _ => eq_refl) (fun _ _ => eq_refl)).
  cbn [cfg]. rewrite Hmac. auto.
Qed.

End PreparationFacts.
